(** * go-ds-measure: a datastore wrapper that records metrics

    A shallow embedding of [measure.go].  The wrapper is written against
    three collaborators that are not part of the package:

    - the backend [datastore.Datastore] (an interface value, with the
      optional capabilities [datastore.Batching] and [io.Closer]);
    - the process-wide registry of go-metrics ([metrics.Register],
      [metrics.Unregister]) and its [Counter] and [Histogram] objects;
    - the clock ([time.Now], [Time.Sub]).

    Go code runs against a mutable world; here the world is an explicit
    state and every function of [measure.go] is a computation in a state
    monad whose result is either a value or a panic. *)

From Stdlib Require Import ZArith Lia.
From Stdlib.Strings Require Import Byte Ascii String.
From stdpp Require Import base tactics option list functions gmap strings.

Local Open Scope Z_scope.

(** ** Machine integers

    [int64] (and [int], on the 64-bit platforms this model fixes) is a [Z]
    together with the wrap-around of two's complement arithmetic. *)

Definition minInt64 : Z := - 2 ^ 63.
Definition maxInt64 : Z := 2 ^ 63 - 1.

Definition wrap64 (z : Z) : Z := (z + 2 ^ 63) mod 2 ^ 64 - 2 ^ 63.

Definition inInt64 (z : Z) : Prop := minInt64 ≤ z ≤ maxInt64.

(** ** Values crossing the datastore interface *)

Definition Key : Type := string.

(** [interface{}]: the only dynamic type the wrapper asks about is [[]byte]. *)
Inductive Value : Type :=
  | VNil
  | VBytes (b : list byte)
  | VOther (tag : nat).

(** The type assertion [value.([]byte)]. *)
Definition asBytes (value : Value) : option (list byte) :=
  match value with
  | VBytes b => Some b
  | _ => None
  end.

(** [int64(len(b))]. *)
Definition len (b : list byte) : Z := Z.of_nat (length b).

(** An [error] that is not [nil]. *)
Inductive error : Type :=
  | ErrBatchUnsupported              (* datastore.ErrBatchUnsupported *)
  | ErrNotFound                      (* datastore.ErrNotFound *)
  | DuplicateMetric (name : string)  (* metrics.DuplicateMetric *)
  | ErrOther (msg : string).

(** [query.Query] and [query.Results] are opaque to the wrapper. *)
Definition Query : Type := string.
Definition Results : Type := list Key.

(** ** Computations

    A call either returns or panics; in both cases it leaves a state. *)

Inductive Outcome (A : Type) : Type :=
  | Returned (a : A)
  | Panicked (msg : string).
Arguments Returned {A} a.
Arguments Panicked {A} msg.

Definition M (S A : Type) : Type := S → Outcome A * S.

Definition ret {S A} (a : A) : M S A := λ s, (Returned a, s).

Definition bind {S A C} (c : M S A) (k : A → M S C) : M S C :=
  λ s, match c s with
       | (Returned a, s') => k a s'
       | (Panicked msg, s') => (Panicked msg, s')
       end.

Definition panic {S A} (msg : string) : M S A := λ s, (Panicked msg, s).

(** [defer d; body]: [d] runs when [body] is left, whether it returned or
    panicked; a panic of [d] itself replaces the outcome of [body]. *)
Definition defer {S A} (d : M S unit) (body : M S A) : M S A :=
  λ s, match body s with
       | (r, s') =>
           match d s' with
           | (Returned _, s'') => (r, s'')
           | (Panicked msg, s'') => (Panicked msg, s'')
           end
       end.

Global Instance M_ret {S} : MRet (M S) := λ A, ret.
Global Instance M_bind {S} : MBind (M S) := λ A C k c, bind c k.

(** [for i := 0; i < n; i++ { body }] with a body that does not mention [i]. *)
Fixpoint times {S} (n : nat) (body : M S unit) : M S unit :=
  match n with
  | O => ret ()
  | S n' => bind body (λ _, times n' body)
  end.

(** ** The backend

    An interface value is the record of its methods; a method acts on the
    backend's own state [B], and may return or panic.  The optional
    capabilities are optional fields: [Some] when the dynamic type of the
    backend implements the interface. *)

Section Backend.
Context {B : Type}.

Definition Method (A : Type) : Type := B → Outcome A * B.

(** [datastore.Batch]. *)
Record Batch : Type := mkBatch {
  Batch_Put : Key → Value → Method (option error);
  Batch_Delete : Key → Method (option error);
  Batch_Commit : Method (option error);
}.

(** [datastore.Datastore], [datastore.Batching], [io.Closer]. *)
Record Datastore : Type := mkDatastore {
  ds_Put : Key → Value → Method (option error);
  ds_Get : Key → Method (Value * option error);
  ds_Has : Key → Method (bool * option error);
  ds_Delete : Key → Method (option error);
  ds_Query : Query → Method (Results * option error);
  ds_Batching : option (Method (Batch * option error));
  ds_Closer : option (Method (option error));
}.
End Backend.
Arguments Batch B : clear implicits.
Arguments Datastore B : clear implicits.
Arguments Method B A : clear implicits.

(** ** go-metrics and the clock

    A [metrics.Counter] is a pointer to an [int64] cell, a
    [metrics.Histogram] a pointer to a sample; the model keeps, for a
    histogram, the values passed to [Update], oldest first. *)

Definition Counter : Type := nat.
Definition Histogram : Type := nat.

(** What [metrics.Register] stores under a name. *)
Inductive Metric : Type :=
  | MCounter (c : Counter)
  | MHistogram (h : Histogram).

Record World (B : Type) : Type := mkWorld {
  registry : gmap string Metric;   (* metrics.DefaultRegistry *)
  counters : Counter → Z;          (* the cells of the counters *)
  nextCounter : Counter;
  histograms : Histogram → list Z; (* the samples of the histograms *)
  nextHistogram : Histogram;
  clock : nat → Z;                 (* the i-th reading of the clock, in ns *)
  ticks : nat;                     (* readings taken so far *)
  store : B;                       (* the state behind the backend *)
}.
Arguments mkWorld {B}.
Arguments registry {B}.
Arguments counters {B}.
Arguments nextCounter {B}.
Arguments histograms {B}.
Arguments nextHistogram {B}.
Arguments clock {B}.
Arguments ticks {B}.
Arguments store {B}.

Section Metrics.
Context {B : Type}.
Abbreviation W := (World B).

Definition set_registry (r : gmap string Metric) (w : W) : W :=
  mkWorld r (counters w) (nextCounter w) (histograms w) (nextHistogram w)
          (clock w) (ticks w) (store w).
Definition set_counters (cs : Counter → Z) (n : Counter) (w : W) : W :=
  mkWorld (registry w) cs n (histograms w) (nextHistogram w)
          (clock w) (ticks w) (store w).
Definition set_histograms (hs : Histogram → list Z) (n : Histogram) (w : W) : W :=
  mkWorld (registry w) (counters w) (nextCounter w) hs n
          (clock w) (ticks w) (store w).
Definition set_ticks (t : nat) (w : W) : W :=
  mkWorld (registry w) (counters w) (nextCounter w) (histograms w)
          (nextHistogram w) (clock w) t (store w).
Definition set_store (b : B) (w : W) : W :=
  mkWorld (registry w) (counters w) (nextCounter w) (histograms w)
          (nextHistogram w) (clock w) (ticks w) b.

(** [metrics.NewCounter()]: a fresh cell holding 0. *)
Definition metrics_NewCounter : M W Counter :=
  λ w, (Returned (nextCounter w),
        set_counters (<[nextCounter w := 0]> (counters w)) (S (nextCounter w)) w).

(** [metrics.NewHistogram(metrics.NewExpDecaySample(...))]: a fresh, empty
    sample. *)
Definition metrics_NewHistogram : M W Histogram :=
  λ w, (Returned (nextHistogram w),
        set_histograms (<[nextHistogram w := []]> (histograms w))
                       (S (nextHistogram w)) w).

(** [metrics.Register]: refuses a name that is taken. *)
Definition metrics_Register (name : string) (i : Metric) : M W (option error) :=
  λ w, match registry w !! name with
       | Some _ => (Returned (Some (DuplicateMetric name)), w)
       | None => (Returned None, set_registry (<[name := i]> (registry w)) w)
       end.

(** [metrics.Unregister]: removes the name, if it is there. *)
Definition metrics_Unregister (name : string) : M W unit :=
  λ w, (Returned (), set_registry (delete name (registry w)) w).

(** [c.Inc(i)]: an atomic add on the [int64] cell. *)
Definition Counter_Inc (c : Counter) (i : Z) : M W unit :=
  λ w, (Returned (),
        set_counters (<[c := wrap64 (counters w c + i)]> (counters w))
                     (nextCounter w) w).

(** [h.Update(v)]. *)
Definition Histogram_Update (h : Histogram) (v : Z) : M W unit :=
  λ w, (Returned (),
        set_histograms (<[h := histograms w h ++ [v]]> (histograms w))
                       (nextHistogram w) w).

(** [time.Now()]: the next reading of the clock. *)
Definition time_Now : M W Z :=
  λ w, (Returned (clock w (ticks w)), set_ticks (S (ticks w)) w).

(** A method call on the backend. *)
Definition call {A} (f : Method B A) : M W A :=
  λ w, match f (store w) with
       | (r, b) => (r, set_store b w)
       end.
End Metrics.

(** [t.Sub(u)] on two readings: the difference, saturated to the range of
    [time.Duration]. *)
Definition Time_Sub (t u : Z) : Z :=
  if t - u <? minInt64 then minInt64
  else if maxInt64 <? t - u then maxInt64
  else t - u.

(** [time.Microsecond], in nanoseconds. *)
Definition Microsecond : Z := 1000.

(** ** The wrapper *)

Record namedCounter : Type := mkNamedCounter {
  namedCounter_name : string;
  namedCounter_Counter : Counter;
}.

Record namedHistogram : Type := mkNamedHistogram {
  namedHistogram_name : string;
  namedHistogram_Histogram : Histogram;
}.

Record measure (B : Type) : Type := mkMeasure {
  backend : Datastore B;

  putCount : namedCounter;
  putErr : namedCounter;
  putLatency : namedHistogram;
  putSize : namedHistogram;

  getCount : namedCounter;
  getErr : namedCounter;
  getLatency : namedHistogram;
  getSize : namedHistogram;

  hasCount : namedCounter;
  hasErr : namedCounter;
  hasLatency : namedHistogram;

  deleteCount : namedCounter;
  deleteErr : namedCounter;
  deleteLatency : namedHistogram;

  queryCount : namedCounter;
  queryErr : namedCounter;
  queryLatency : namedHistogram;
}.
Arguments mkMeasure {B}.
Arguments backend {B}.
Arguments putCount {B}.
Arguments putErr {B}.
Arguments putLatency {B}.
Arguments putSize {B}.
Arguments getCount {B}.
Arguments getErr {B}.
Arguments getLatency {B}.
Arguments getSize {B}.
Arguments hasCount {B}.
Arguments hasErr {B}.
Arguments hasLatency {B}.
Arguments deleteCount {B}.
Arguments deleteErr {B}.
Arguments deleteLatency {B}.
Arguments queryCount {B}.
Arguments queryErr {B}.
Arguments queryLatency {B}.

Record measuredBatch (B : Type) : Type := mkMeasuredBatch {
  puts : Z;
  deletes : Z;

  putts : Batch B;
  delts : Batch B;

  m : measure B;
}.
Arguments mkMeasuredBatch {B}.
Arguments puts {B}.
Arguments deletes {B}.
Arguments putts {B}.
Arguments delts {B}.
Arguments m {B}.

(** The double quote of [fmt.Sprintf("duplicate metric \"%s\"", name)]. *)
Definition dquote : string := String "034"%char EmptyString.

Definition duplicate_metric (name : string) : string :=
  "duplicate metric " +:+ dquote +:+ name +:+ dquote.

Section Measure.
Context {B : Type}.
Abbreviation W := (World B).

Definition registerCounter (name : string) : M W namedCounter :=
  counter ← metrics_NewCounter;
  err ← metrics_Register name (MCounter counter);
  match err with
  | Some _ => panic (duplicate_metric name)
  | None => mret (mkNamedCounter name counter)
  end.

Definition registerHistogram (name : string) : M W namedHistogram :=
  hist ← metrics_NewHistogram;
  err ← metrics_Register name (MHistogram hist);
  match err with
  | Some _ => panic (duplicate_metric name)
  | None => mret (mkNamedHistogram name hist)
  end.

(** The fields of the composite literal are evaluated in source order. *)
Definition New (prefix : string) (ds : Datastore B) : M W (measure B) :=
  putCount ← registerCounter (prefix +:+ ".put.count");
  putErr ← registerCounter (prefix +:+ ".put.err");
  putLatency ← registerHistogram (prefix +:+ ".put.latency");
  putSize ← registerHistogram (prefix +:+ ".put.size");

  getCount ← registerCounter (prefix +:+ ".get.count");
  getErr ← registerCounter (prefix +:+ ".get.err");
  getLatency ← registerHistogram (prefix +:+ ".get.latency");
  getSize ← registerHistogram (prefix +:+ ".get.size");

  hasCount ← registerCounter (prefix +:+ ".has.count");
  hasErr ← registerCounter (prefix +:+ ".has.err");
  hasLatency ← registerHistogram (prefix +:+ ".has.latency");

  deleteCount ← registerCounter (prefix +:+ ".delete.count");
  deleteErr ← registerCounter (prefix +:+ ".delete.err");
  deleteLatency ← registerHistogram (prefix +:+ ".delete.latency");

  queryCount ← registerCounter (prefix +:+ ".query.count");
  queryErr ← registerCounter (prefix +:+ ".query.err");
  queryLatency ← registerHistogram (prefix +:+ ".query.latency");
  mret (mkMeasure ds
          putCount putErr putLatency putSize
          getCount getErr getLatency getSize
          hasCount hasErr hasLatency
          deleteCount deleteErr deleteLatency
          queryCount queryErr queryLatency).

Definition recordLatency (h : namedHistogram) (start : Z) : M W unit :=
  now ← time_Now;
  let elapsed := Z.quot (Time_Sub now start) Microsecond in
  Histogram_Update (namedHistogram_Histogram h) elapsed.

Definition measure_Put (m : measure B) (key : Key) (value : Value)
  : M W (option error) :=
  start ← time_Now;
  defer (recordLatency (putLatency m) start) (
    Counter_Inc (namedCounter_Counter (putCount m)) 1;;
    match asBytes value with
    | Some b => Histogram_Update (namedHistogram_Histogram (putSize m)) (len b)
    | None => mret ()
    end;;
    err ← call (ds_Put (backend m) key value);
    match err with
    | Some _ => Counter_Inc (namedCounter_Counter (putErr m)) 1
    | None => mret ()
    end;;
    mret err).

Definition measure_Get (m : measure B) (key : Key)
  : M W (Value * option error) :=
  start ← time_Now;
  defer (recordLatency (getLatency m) start) (
    Counter_Inc (namedCounter_Counter (getCount m)) 1;;
    '(value, err) ← call (ds_Get (backend m) key);
    match err with
    | Some _ => Counter_Inc (namedCounter_Counter (getErr m)) 1
    | None =>
        match asBytes value with
        | Some b => Histogram_Update (namedHistogram_Histogram (getSize m)) (len b)
        | None => mret ()
        end
    end;;
    mret (value, err)).

Definition measure_Has (m : measure B) (key : Key)
  : M W (bool * option error) :=
  start ← time_Now;
  defer (recordLatency (hasLatency m) start) (
    Counter_Inc (namedCounter_Counter (hasCount m)) 1;;
    '(exists_, err) ← call (ds_Has (backend m) key);
    match err with
    | Some _ => Counter_Inc (namedCounter_Counter (hasErr m)) 1
    | None => mret ()
    end;;
    mret (exists_, err)).

Definition measure_Delete (m : measure B) (key : Key) : M W (option error) :=
  start ← time_Now;
  defer (recordLatency (deleteLatency m) start) (
    Counter_Inc (namedCounter_Counter (deleteCount m)) 1;;
    err ← call (ds_Delete (backend m) key);
    match err with
    | Some _ => Counter_Inc (namedCounter_Counter (deleteErr m)) 1
    | None => mret ()
    end;;
    mret err).

Definition measure_Query (m : measure B) (q : Query)
  : M W (Results * option error) :=
  start ← time_Now;
  defer (recordLatency (queryLatency m) start) (
    Counter_Inc (namedCounter_Counter (queryCount m)) 1;;
    '(res, err) ← call (ds_Query (backend m) q);
    match err with
    | Some _ => Counter_Inc (namedCounter_Counter (queryErr m)) 1
    | None => mret ()
    end;;
    mret (res, err)).
End Measure.

(** ** Batches

    A [*measuredBatch] is mutated by its [Put] and [Delete]; these run on
    the pair of the batch and the world, so that the mutation is there
    also when the backend panics.  [Commit] only reads the batch. *)

Section MeasuredBatch.
Context {B : Type}.
Abbreviation W := (World B).
Abbreviation BW := (measuredBatch B * World B)%type.

Definition measure_Batch (m : measure B)
  : M W (option (measuredBatch B) * option error) :=
  match ds_Batching (backend m) with
  | None => mret (None, Some ErrBatchUnsupported)
  | Some bds_Batch =>
      '(pb, err) ← call bds_Batch;
      match err with
      | Some e => mret (None, Some e)
      | None =>
          '(db, err) ← call bds_Batch;
          match err with
          | Some e => mret (None, Some e)
          | None => mret (Some (mkMeasuredBatch 0 0 pb db m), None)
          end
      end
  end.

(** Reading and writing the receiver, and acting on the world. *)
Definition this : M BW (measuredBatch B) := λ s, (Returned (fst s), s).
Definition store_puts (n : Z) : M BW unit :=
  λ '(mt, w), (Returned (),
               (mkMeasuredBatch n (deletes mt) (putts mt) (delts mt) (m mt), w)).
Definition store_deletes (n : Z) : M BW unit :=
  λ '(mt, w), (Returned (),
               (mkMeasuredBatch (puts mt) n (putts mt) (delts mt) (m mt), w)).
Definition in_world {A} (c : M W A) : M BW A :=
  λ '(mt, w), match c w with
              | (r, w') => (r, (mt, w'))
              end.

Definition measuredBatch_Put (key : Key) (val : Value) : M BW (option error) :=
  mt ← this;
  store_puts (wrap64 (puts mt + 1));;
  match asBytes val with
  | Some valb =>
      in_world (Histogram_Update (namedHistogram_Histogram (putSize (m mt))) (len valb))
  | None => mret ()
  end;;
  in_world (call (Batch_Put (putts mt) key val)).

Definition measuredBatch_Delete (key : Key) : M BW (option error) :=
  mt ← this;
  store_deletes (wrap64 (deletes mt + 1));;
  in_world (call (Batch_Delete (delts mt) key)).

Definition logBatchCommit (b : Batch B) (n : Z) (num errs : Counter)
    (lat : namedHistogram) : M W (option error) :=
  if 0 <? n then
    before ← time_Now;
    err ← call (Batch_Commit b);
    now ← time_Now;
    let took := Z.quot (Z.quot (Time_Sub now before) Microsecond) n in
    Counter_Inc num n;;
    times (Z.to_nat n) (Histogram_Update (namedHistogram_Histogram lat) took);;
    match err with
    | Some e => Counter_Inc errs 1;; mret (Some e)
    | None => mret None
    end
  else mret None.

Definition measuredBatch_Commit (mt : measuredBatch B) : M W (option error) :=
  err ← logBatchCommit (delts mt) (deletes mt)
          (namedCounter_Counter (deleteCount (m mt)))
          (namedCounter_Counter (deleteErr (m mt)))
          (deleteLatency (m mt));
  match err with
  | Some e => mret (Some e)
  | None =>
      err ← logBatchCommit (putts mt) (puts mt)
              (namedCounter_Counter (putCount (m mt)))
              (namedCounter_Counter (putErr (m mt)))
              (putLatency (m mt));
      match err with
      | Some e => mret (Some e)
      | None => mret None
      end
  end.
End MeasuredBatch.

(** ** Teardown *)

Section Teardown.
Context {B : Type}.
Abbreviation W := (World B).

Definition measure_Close (m : measure B) : M W (option error) :=
  metrics_Unregister (namedCounter_name (putCount m));;
  metrics_Unregister (namedCounter_name (putErr m));;
  metrics_Unregister (namedHistogram_name (putLatency m));;
  metrics_Unregister (namedHistogram_name (putSize m));;
  metrics_Unregister (namedCounter_name (getCount m));;
  metrics_Unregister (namedCounter_name (getErr m));;
  metrics_Unregister (namedHistogram_name (getLatency m));;
  metrics_Unregister (namedHistogram_name (getSize m));;
  metrics_Unregister (namedCounter_name (hasCount m));;
  metrics_Unregister (namedCounter_name (hasErr m));;
  metrics_Unregister (namedHistogram_name (hasLatency m));;
  metrics_Unregister (namedCounter_name (deleteCount m));;
  metrics_Unregister (namedCounter_name (deleteErr m));;
  metrics_Unregister (namedHistogram_name (deleteLatency m));;
  metrics_Unregister (namedCounter_name (queryCount m));;
  metrics_Unregister (namedCounter_name (queryErr m));;
  metrics_Unregister (namedHistogram_name (queryLatency m));;
  match ds_Closer (backend m) with
  | Some c_Close => call c_Close
  | None => mret None
  end.
End Teardown.

(** ** Observations

    The vocabulary of the properties below. *)

(** [c.Count()] and the samples a histogram has received. *)
Definition Count {B} (w : World B) (c : namedCounter) : Z :=
  counters w (namedCounter_Counter c).
Definition Samples {B} (w : World B) (h : namedHistogram) : list Z :=
  histograms w (namedHistogram_Histogram h).

(** The handles of a wrapper point to objects of their own: [New] allocates
    each of them (see [New_distinct_handles]). *)
Definition counterHandles {B} (m : measure B) : list Counter :=
  namedCounter_Counter <$>
    [putCount m; putErr m; getCount m; getErr m; hasCount m; hasErr m;
     deleteCount m; deleteErr m; queryCount m; queryErr m].
Definition histogramHandles {B} (m : measure B) : list Histogram :=
  namedHistogram_Histogram <$>
    [putLatency m; putSize m; getLatency m; getSize m; hasLatency m;
     deleteLatency m; queryLatency m].
Definition distinct_handles {B} (m : measure B) : Prop :=
  NoDup (counterHandles m) ∧ NoDup (histogramHandles m).

(** A call that came back with an error ([err a] is the error among the
    results [a]). *)
Definition failed {A} (err : A → option error) (r : Outcome A) : bool :=
  match r with
  | Returned a => bool_decide (is_Some (err a))
  | Panicked _ => false
  end.

(** Microseconds between the readings [i] and [i + 1] of the clock, as
    [recordLatency] and [logBatchCommit] compute them. *)
Definition elapsed {B} (w : World B) (i : nat) : Z :=
  Z.quot (Time_Sub (clock w (S i)) (clock w i)) Microsecond.

Definition monotone_clock {B} (w : World B) : Prop :=
  ∀ i j : nat, (i ≤ j)%nat → clock w i ≤ clock w j.

(** The samples of a sub-batch of [n] operations whose commit starts at the
    reading [start] of the clock: [n] times the elapsed microseconds
    divided by [n], the quotient truncated. *)
Definition amortized {B} (w : World B) (start : nat) (n : Z) : list Z :=
  replicate (Z.to_nat n) (Z.quot (elapsed w start) n).

(** A call that came back, with or without an error. *)
Definition returned {A} (r : Outcome A) : Prop :=
  match r with
  | Returned _ => True
  | Panicked _ => False
  end.

(** The size samples a value gives rise to: its length when it is a
    [[]byte], none otherwise. *)
Definition size_sample (value : Value) : list Z :=
  match asBytes value with
  | Some b => [len b]
  | None => []
  end.

(** One call of an operation: [op] is the wrapper's method and
    [backend_call] the backend's, [count] and [errs] are the counters of
    the operation.  The caller gets what the backend gave, the backend was
    called once, the call was counted, and it was counted as an error
    exactly when the backend returned one. *)
Definition delegated {B A} (err : A → option error) (backend_call : Method B A)
    (op : M (World B) A) (count errs : namedCounter) (w : World B) : Prop :=
  let r := backend_call (store w) in
  (op w).1 = r.1
  ∧ store (op w).2 = r.2
  ∧ Count (op w).2 count = wrap64 (Count w count + 1)
  ∧ Count (op w).2 errs =
      (if failed err r.1 then wrap64 (Count w errs + 1) else Count w errs).

(** ** What [New] builds

    The wrapper [New] returns when it starts from the counter cell [c] and
    the histogram [h], and the names it registers on the way, in the order
    of registration. *)

Definition New_result {B} (prefix : string) (ds : Datastore B)
    (c : Counter) (h : Histogram) : measure B :=
  mkMeasure ds
    (mkNamedCounter (prefix +:+ ".put.count") c)
    (mkNamedCounter (prefix +:+ ".put.err") (1 + c)%nat)
    (mkNamedHistogram (prefix +:+ ".put.latency") h)
    (mkNamedHistogram (prefix +:+ ".put.size") (1 + h)%nat)
    (mkNamedCounter (prefix +:+ ".get.count") (2 + c)%nat)
    (mkNamedCounter (prefix +:+ ".get.err") (3 + c)%nat)
    (mkNamedHistogram (prefix +:+ ".get.latency") (2 + h)%nat)
    (mkNamedHistogram (prefix +:+ ".get.size") (3 + h)%nat)
    (mkNamedCounter (prefix +:+ ".has.count") (4 + c)%nat)
    (mkNamedCounter (prefix +:+ ".has.err") (5 + c)%nat)
    (mkNamedHistogram (prefix +:+ ".has.latency") (4 + h)%nat)
    (mkNamedCounter (prefix +:+ ".delete.count") (6 + c)%nat)
    (mkNamedCounter (prefix +:+ ".delete.err") (7 + c)%nat)
    (mkNamedHistogram (prefix +:+ ".delete.latency") (5 + h)%nat)
    (mkNamedCounter (prefix +:+ ".query.count") (8 + c)%nat)
    (mkNamedCounter (prefix +:+ ".query.err") (9 + c)%nat)
    (mkNamedHistogram (prefix +:+ ".query.latency") (6 + h)%nat).

(** The names and the registered objects of a wrapper, in the order in
    which [New] registers and [Close] unregisters them. *)
Definition handles {B} (m : measure B) : list (string * Metric) :=
  let c (x : namedCounter) := (namedCounter_name x, MCounter (namedCounter_Counter x)) in
  let h (x : namedHistogram) :=
    (namedHistogram_name x, MHistogram (namedHistogram_Histogram x)) in
  [c (putCount m); c (putErr m); h (putLatency m); h (putSize m);
   c (getCount m); c (getErr m); h (getLatency m); h (getSize m);
   c (hasCount m); c (hasErr m); h (hasLatency m);
   c (deleteCount m); c (deleteErr m); h (deleteLatency m);
   c (queryCount m); c (queryErr m); h (queryLatency m)].

Definition handle_names {B} (m : measure B) : list string := fst <$> handles m.

Definition metric_suffixes : list string :=
  [".put.count"; ".put.err"; ".put.latency"; ".put.size";
   ".get.count"; ".get.err"; ".get.latency"; ".get.size";
   ".has.count"; ".has.err"; ".has.latency";
   ".delete.count"; ".delete.err"; ".delete.latency";
   ".query.count"; ".query.err"; ".query.latency"].

Definition metric_names (prefix : string) : list string :=
  String.append prefix <$> metric_suffixes.

(** The first of [names] that the registry [r] already holds. *)
Fixpoint first_taken (names : list string) (r : gmap string Metric)
  : option string :=
  match names with
  | [] => None
  | name :: names' =>
      match r !! name with
      | Some _ => Some name
      | None => first_taken names' r
      end
  end.

(** The naming convention as the specification words it:
    [<prefix>.<operation>.<signal>], every operation with the signals
    count, err and latency, and put and get with size as well. *)
Definition spec_operations : list string := ["put"; "get"; "has"; "delete"; "query"].
Definition spec_signals : list string := ["count"; "err"; "latency"].
Definition spec_sized : list string := ["put"; "get"].

Definition spec_name (prefix operation signal : string) : string :=
  prefix +:+ "." +:+ operation +:+ "." +:+ signal.

Definition spec_names (prefix : string) : list string :=
  (operation ← spec_operations; spec_name prefix operation <$> spec_signals)
  ++ ((λ operation, spec_name prefix operation "size") <$> spec_sized).

(** ** Sequences of calls

    The world after a caller has made the calls one after the other,
    whatever each of them came back with. *)

Definition put_each {B} (m : measure B) (kvs : list (Key * Value)) (w : World B)
  : World B :=
  foldl (λ w kv, (measure_Put m kv.1 kv.2 w).2) w kvs.

Inductive BatchOp : Type :=
  | OpPut (key : Key) (val : Value)
  | OpDelete (key : Key).

Definition batch_op {B} (op : BatchOp) : M (measuredBatch B * World B) (option error) :=
  match op with
  | OpPut key val => measuredBatch_Put key val
  | OpDelete key => measuredBatch_Delete key
  end.

Definition batch_each {B} (ops : list BatchOp) (s : measuredBatch B * World B)
  : measuredBatch B * World B :=
  foldl (λ s op, (batch_op op s).2) s ops.

Definition is_put (op : BatchOp) : bool :=
  match op with OpPut _ _ => true | OpDelete _ => false end.

(** How many of the operations [which] selects. *)
Fixpoint buffered (which : BatchOp → bool) (ops : list BatchOp) : Z :=
  match ops with
  | [] => 0
  | op :: ops' => (if which op then 1 else 0) + buffered which ops'
  end.

Definition is_delete (op : BatchOp) : bool := negb (is_put op).

(** A put of a byte payload. *)
Definition bytes_put (kb : Key * list byte) : Key * Value := (kb.1, VBytes kb.2).

(** ** A backend for the examples

    It records the calls it receives, oldest first, and answers each from
    a script. *)

Inductive Call : Type :=
  | CallPut (key : Key) (value : Value)
  | CallGet (key : Key)
  | CallHas (key : Key)
  | CallDelete (key : Key)
  | CallQuery (q : Query)
  | CallBatch
  | CallBatchPut (session : nat) (key : Key) (value : Value)
  | CallBatchDelete (session : nat) (key : Key)
  | CallCommit (session : nat)
  | CallClose.

Definition Script : Type := Call → Outcome (option error).

Definition answer (script : Script) (c : Call) : Method (list Call) (option error) :=
  λ log, (script c, log ++ [c]).

Definition answer_with {A} (script : Script) (c : Call) (a : A)
  : Method (list Call) (A * option error) :=
  λ log, (match script c with
          | Returned err => Returned (a, err)
          | Panicked msg => Panicked msg
          end, log ++ [c]).

Definition recorderBatch (script : Script) (session : nat) : Batch (list Call) :=
  mkBatch (λ key value, answer script (CallBatchPut session key value))
          (λ key, answer script (CallBatchDelete session key))
          (answer script (CallCommit session)).

(** The session of a batch is the position of its [CallBatch] in the log. *)
Definition recorder (script : Script) (content : Key → Value)
    (batching closer : bool) : Datastore (list Call) :=
  mkDatastore
    (λ key value, answer script (CallPut key value))
    (λ key, answer_with script (CallGet key) (content key))
    (λ key, answer_with script (CallHas key) true)
    (λ key, answer script (CallDelete key))
    (λ q, answer_with script (CallQuery q) [])
    (if batching
     then Some (λ log, answer_with script CallBatch
                         (recorderBatch script (length log)) log)
     else None)
    (if closer then Some (answer script CallClose) else None).

Definition always_ok : Script := λ _, Returned None.

(** A world where nothing is registered; the clock advances by 10.5
    microseconds per reading. *)
Definition empty_world {B} (b : B) : World B :=
  mkWorld ∅ (λ _, 0) 0%nat (λ _, []) 0%nat (λ i, 10500 * Z.of_nat i) 0%nat b.

(** ** Examples

    A wrapper with the prefix [ds] over a recording backend that does not
    find any key, in a world where nothing has happened yet. *)

Definition example_script : Script := λ c,
  match c with
  | CallGet _ => Returned (Some ErrNotFound)
  | _ => Returned None
  end.

Definition example_ds : Datastore (list Call) :=
  recorder example_script (λ _, VNil) true true.

Definition example_m : measure (list Call) := New_result "ds" example_ds 0%nat 0%nat.

Definition example_w : World (list Call) := empty_world [].

(** The same wrapper over a backend without batches and without [Close]. *)
Definition plain_m : measure (list Call) :=
  New_result "ds" (recorder example_script (λ _, VNil) false false) 0%nat 0%nat.

Definition hello : list byte := String.list_byte_of_string "hello".

(** A batch of the example wrapper with [P] puts and [D] deletes buffered,
    over a backend that answers from [script]; the put session is 0 and
    the delete session 1. *)
Definition example_batch (script : Script) (P D : Z) : measuredBatch (list Call) :=
  mkMeasuredBatch P D (recorderBatch script 0) (recorderBatch script 1)
    (New_result "ds" (recorder script (λ _, VNil) true true) 0%nat 0%nat).

(** A backend on which no commit goes through, and one that refuses every
    buffered operation. *)
Definition full_disk : Script := λ c,
  match c with
  | CallCommit _ => Returned (Some (ErrOther "disk full"))
  | _ => Returned None
  end.

Definition read_only : Script := λ c,
  match c with
  | CallBatchPut _ _ _ | CallBatchDelete _ _ => Returned (Some (ErrOther "read only"))
  | _ => Returned None
  end.

(** The scenario of the specification: construct with the prefix [ds], put
    5 bytes under [a], get the missing key [b], open a batch, buffer
    three puts and commit. *)
Definition scenario : World (list Call) :=
  let w1 := (New "ds" example_ds example_w).2 in
  let w2 := (measure_Put example_m "a" (VBytes hello) w1).2 in
  let w3 := (measure_Get example_m "b" w2).2 in
  match measure_Batch example_m w3 with
  | (Returned (Some mt, None), w4) =>
      let s := batch_each [OpPut "c" VNil; OpPut "d" VNil; OpPut "e" VNil] (mt, w4) in
      (measuredBatch_Commit s.1 s.2).2
  | (_, w4) => w4
  end.

(** ** More observations

    What a call leaves alone: [w'] differs from [w] at most in the cells
    of the counters [cs], in the samples of the histograms [hs], in the
    number of clock readings and in the backend. *)
Definition touches_only {B} (w w' : World B) (cs : list Counter)
    (hs : list Histogram) : Prop :=
  registry w' = registry w
  ∧ clock w' = clock w
  ∧ nextCounter w' = nextCounter w
  ∧ nextHistogram w' = nextHistogram w
  ∧ (∀ c, c ∉ cs → counters w' c = counters w c)
  ∧ (∀ h, h ∉ hs → histograms w' h = histograms w h).

(** The size samples of a sequence of batch operations: those of its puts. *)
Definition op_sizes (op : BatchOp) : list Z :=
  match op with
  | OpPut _ val => size_sample val
  | OpDelete _ => []
  end.

(** The sum of a list of samples. *)
Definition total (samples : list Z) : Z := foldr Z.add 0 samples.
(** How many of [names], from the first on, the registry [r] does not
    hold: the registrations [New] gets through. *)
Fixpoint free_prefix (names : list string) (r : gmap string Metric) : nat :=
  match names with
  | [] => 0
  | name :: names' =>
      match r !! name with
      | Some _ => 0
      | None => S (free_prefix names' r)
      end
  end.
(** The number of dots in a name; the suffixes [New] appends have two, the
    first of them in front. *)
Fixpoint dots (s : string) : nat :=
  match s with
  | EmptyString => 0
  | String a s' => (if Ascii.eqb a "." then 1 else 0) + dots s'
  end.
(** A backend whose commits panic. *)
Definition crashing : Script := λ c,
  match c with
  | CallCommit _ => Panicked "commit: disk is gone"
  | CallPut _ _ => Panicked "put: disk is gone"
  | _ => Returned None
  end.

(** ** Tactics for running the model *)

Ltac run :=
  unfold defer, recordLatency, mbind, M_bind, bind, mret, M_ret, ret, panic,
    time_Now, Counter_Inc, Histogram_Update, metrics_Unregister, call,
    Count, Samples, elapsed in *;
  cbn [fst snd registry counters nextCounter histograms nextHistogram clock
       ticks store set_registry set_counters set_histograms set_ticks
       set_store] in *.

(** The same for long straight-line code, on a world that is given by its
    fields. *)
Ltac run_fields :=
  cbv beta iota zeta delta
    [mbind M_bind bind mret M_ret ret panic
     metrics_NewCounter metrics_NewHistogram metrics_Register
     metrics_Unregister call
     fst snd registry counters nextCounter histograms nextHistogram clock
     ticks store set_registry set_counters set_histograms set_ticks
     set_store].

(** Pairwise distinct handles, from [distinct_handles]. *)
Ltac distinct H :=
  destruct H as [?Hc ?Hh];
  unfold counterHandles, histogramHandles in *;
  cbn [fmap list_fmap] in *;
  rewrite ?NoDup_cons, ?not_elem_of_cons in *;
  destruct_and?.

Ltac heap :=
  repeat first [ rewrite fn_lookup_insert
               | rewrite fn_lookup_insert_ne by congruence ].

(** * Properties *)

Arguments wrap64 : simpl never.
Arguments Time_Sub : simpl never.
Arguments elapsed : simpl never.
Arguments len : simpl never.

(** ** Integers and the clock *)

Lemma wrap64_inInt64 z : inInt64 z → wrap64 z = z.
Proof.
  unfold inInt64, minInt64, maxInt64, wrap64. intros Hz.
  rewrite Z.mod_small; lia.
Qed.

Lemma wrap64_range z : inInt64 (wrap64 z).
Proof.
  unfold inInt64, minInt64, maxInt64, wrap64.
  pose proof (Z.mod_pos_bound (z + 2 ^ 63) (2 ^ 64)). lia.
Qed.

Lemma wrap64_add_l a b : wrap64 (wrap64 a + b) = wrap64 (a + b).
Proof.
  unfold wrap64. f_equal.
  replace (((a + 2 ^ 63) mod 2 ^ 64 - 2 ^ 63 + b + 2 ^ 63))
    with ((a + 2 ^ 63) mod 2 ^ 64 + b) by lia.
  rewrite Zplus_mod_idemp_l. f_equal. lia.
Qed.

Lemma Time_Sub_nonneg t u : u ≤ t → 0 ≤ Time_Sub t u.
Proof.
  unfold Time_Sub, minInt64, maxInt64. intros Htu.
  repeat case_match; lia.
Qed.

Lemma elapsed_nonneg {B} (w : World B) i : monotone_clock w → 0 ≤ elapsed w i.
Proof.
  intros Hw. unfold elapsed, Microsecond.
  apply Z.quot_pos; [|lia]. apply Time_Sub_nonneg, Hw. lia.
Qed.

(** ** The five operations

    What one call does to the caller, to the backend and to the metrics of
    its operation. *)

Section Operations.
Context {B : Type}.
Implicit Types (m : measure B) (w : World B).

Lemma measure_Put_effect m key value w :
  distinct_handles m →
  let r := ds_Put (backend m) key value (store w) in
  let w' := (measure_Put m key value w).2 in
  (measure_Put m key value w).1 = r.1
  ∧ store w' = r.2
  ∧ Count w' (putCount m) = wrap64 (Count w (putCount m) + 1)
  ∧ Count w' (putErr m) =
      (if failed id r.1 then wrap64 (Count w (putErr m) + 1)
       else Count w (putErr m))
  ∧ Samples w' (putLatency m) = Samples w (putLatency m) ++ [elapsed w (ticks w)]
  ∧ Samples w' (putSize m) =
      Samples w (putSize m) ++
        match asBytes value with Some b => [len b] | None => [] end.
Proof.
  intros Hd. distinct Hd. unfold measure_Put.
  destruct (asBytes value) as [b|]; run;
    destruct (ds_Put (backend m) key value (store w)) as [[[e|]|msg] b'];
    run; cbn; heap; rewrite ?app_nil_r; auto 10.
Qed.

Lemma measure_Get_effect m key w :
  distinct_handles m →
  let r := ds_Get (backend m) key (store w) in
  let w' := (measure_Get m key w).2 in
  (measure_Get m key w).1 = r.1
  ∧ store w' = r.2
  ∧ Count w' (getCount m) = wrap64 (Count w (getCount m) + 1)
  ∧ Count w' (getErr m) =
      (if failed snd r.1 then wrap64 (Count w (getErr m) + 1)
       else Count w (getErr m))
  ∧ Samples w' (getLatency m) = Samples w (getLatency m) ++ [elapsed w (ticks w)]
  ∧ Samples w' (getSize m) =
      Samples w (getSize m) ++
        match r.1 with
        | Returned (value, None) =>
            match asBytes value with Some b => [len b] | None => [] end
        | _ => []
        end.
Proof.
  intros Hd. distinct Hd. unfold measure_Get. run.
  destruct (ds_Get (backend m) key (store w)) as [[[value [e|]]|msg] b'];
    run; cbn; [| destruct (asBytes value) as [b|]; run |];
    heap; rewrite ?app_nil_r; auto 10.
Qed.

Lemma measure_Has_effect m key w :
  distinct_handles m →
  let r := ds_Has (backend m) key (store w) in
  let w' := (measure_Has m key w).2 in
  (measure_Has m key w).1 = r.1
  ∧ store w' = r.2
  ∧ Count w' (hasCount m) = wrap64 (Count w (hasCount m) + 1)
  ∧ Count w' (hasErr m) =
      (if failed snd r.1 then wrap64 (Count w (hasErr m) + 1)
       else Count w (hasErr m))
  ∧ Samples w' (hasLatency m) = Samples w (hasLatency m) ++ [elapsed w (ticks w)].
Proof.
  intros Hd. distinct Hd. unfold measure_Has. run.
  destruct (ds_Has (backend m) key (store w)) as [[[found [e|]]|msg] b'];
    run; cbn; heap; auto 10.
Qed.

Lemma measure_Delete_effect m key w :
  distinct_handles m →
  let r := ds_Delete (backend m) key (store w) in
  let w' := (measure_Delete m key w).2 in
  (measure_Delete m key w).1 = r.1
  ∧ store w' = r.2
  ∧ Count w' (deleteCount m) = wrap64 (Count w (deleteCount m) + 1)
  ∧ Count w' (deleteErr m) =
      (if failed id r.1 then wrap64 (Count w (deleteErr m) + 1)
       else Count w (deleteErr m))
  ∧ Samples w' (deleteLatency m) =
      Samples w (deleteLatency m) ++ [elapsed w (ticks w)].
Proof.
  intros Hd. distinct Hd. unfold measure_Delete. run.
  destruct (ds_Delete (backend m) key (store w)) as [[[e|]|msg] b'];
    run; cbn; heap; auto 10.
Qed.

Lemma measure_Query_effect m q w :
  distinct_handles m →
  let r := ds_Query (backend m) q (store w) in
  let w' := (measure_Query m q w).2 in
  (measure_Query m q w).1 = r.1
  ∧ store w' = r.2
  ∧ Count w' (queryCount m) = wrap64 (Count w (queryCount m) + 1)
  ∧ Count w' (queryErr m) =
      (if failed snd r.1 then wrap64 (Count w (queryErr m) + 1)
       else Count w (queryErr m))
  ∧ Samples w' (queryLatency m) =
      Samples w (queryLatency m) ++ [elapsed w (ticks w)].
Proof.
  intros Hd. distinct Hd. unfold measure_Query. run.
  destruct (ds_Query (backend m) q (store w)) as [[[res [e|]]|msg] b'];
    run; cbn; heap; auto 10.
Qed.
End Operations.

Lemma example_distinct : distinct_handles example_m.
Proof. split; apply (bool_decide_unpack _); vm_compute; exact I. Defined.

Lemma example_monotone : monotone_clock example_w.
Proof. intros i j Hij. cbn. lia. Defined.

(** ** Claims about the five operations *)

Section OperationClaims.
Context {B : Type}.
Implicit Types (m : measure B) (w : World B).

(** C2: each of Put, Get, Has, Delete and Query returns what the backend
    returned (value, error or panic) after calling it exactly once,
    increments its count counter by one whatever the outcome, and
    increments its error counter by one exactly when the backend returned
    an error. *)
Theorem operations_counted m key value q w :
  distinct_handles m →
  delegated id (ds_Put (backend m) key value) (measure_Put m key value)
    (putCount m) (putErr m) w
  ∧ delegated snd (ds_Get (backend m) key) (measure_Get m key)
      (getCount m) (getErr m) w
  ∧ delegated snd (ds_Has (backend m) key) (measure_Has m key)
      (hasCount m) (hasErr m) w
  ∧ delegated id (ds_Delete (backend m) key) (measure_Delete m key)
      (deleteCount m) (deleteErr m) w
  ∧ delegated snd (ds_Query (backend m) q) (measure_Query m q)
      (queryCount m) (queryErr m) w.
Proof.
  intros Hd. unfold delegated. repeat split.
  all: first [ eapply measure_Put_effect | eapply measure_Get_effect
             | eapply measure_Has_effect | eapply measure_Delete_effect
             | eapply measure_Query_effect ]; exact Hd.
Qed.

(** C9: each of the five operations adds exactly one sample to its latency
    histogram, whatever the backend did (returned, returned an error or
    panicked): the microseconds between the two readings of the clock the
    call takes; under a clock that does not run backwards the sample is not
    negative. *)
Theorem latency_recorded_once m key value q w :
  distinct_handles m →
  monotone_clock w →
  let t := elapsed w (ticks w) in
  0 ≤ t
  ∧ Samples (measure_Put m key value w).2 (putLatency m)
    = Samples w (putLatency m) ++ [t]
  ∧ Samples (measure_Get m key w).2 (getLatency m)
    = Samples w (getLatency m) ++ [t]
  ∧ Samples (measure_Has m key w).2 (hasLatency m)
    = Samples w (hasLatency m) ++ [t]
  ∧ Samples (measure_Delete m key w).2 (deleteLatency m)
    = Samples w (deleteLatency m) ++ [t]
  ∧ Samples (measure_Query m q w).2 (queryLatency m)
    = Samples w (queryLatency m) ++ [t].
Proof.
  intros Hd Hclock t. split; [by apply elapsed_nonneg|].
  repeat split.
  - by apply measure_Put_effect.
  - by apply measure_Get_effect.
  - by apply measure_Has_effect.
  - by apply measure_Delete_effect.
  - by apply measure_Query_effect.
Qed.
End OperationClaims.

Lemma operations_counted_witness :
  (measure_Get example_m "b" example_w).1 = Returned (VNil, Some ErrNotFound)
  ∧ Count (measure_Get example_m "b" example_w).2 (getCount example_m) = 1
  ∧ Count (measure_Get example_m "b" example_w).2 (getErr example_m) = 1
  ∧ Count (measure_Put example_m "b" VNil example_w).2 (putErr example_m) = 0.
Proof.
  destruct (operations_counted example_m "b" VNil "q" example_w
              example_distinct) as (Hput & Hget & _).
  destruct Hget as (-> & _ & -> & ->).
  destruct Hput as (_ & _ & _ & ->).
  vm_compute. auto.
Defined.

Lemma latency_recorded_once_witness :
  Samples (measure_Get example_m "b" example_w).2 (getLatency example_m) = [10].
Proof.
  destruct (latency_recorded_once example_m "b" VNil "q" example_w
              example_distinct example_monotone) as (_ & _ & -> & _).
  vm_compute. reflexivity.
Defined.

(** ** Batches: buffering *)

Section Buffering.
Context {B : Type}.
Implicit Types (m : measure B) (mt : measuredBatch B) (w : World B).

Lemma measuredBatch_Put_effect mt key val w :
  let r := Batch_Put (putts mt) key val (store w) in
  let s' := (measuredBatch_Put key val (mt, w)).2 in
  (measuredBatch_Put key val (mt, w)).1 = r.1
  ∧ s'.1 = mkMeasuredBatch (wrap64 (puts mt + 1)) (deletes mt)
             (putts mt) (delts mt) (m mt)
  ∧ store s'.2 = r.2
  ∧ Samples s'.2 (putSize (m mt)) =
      Samples w (putSize (m mt)) ++
        match asBytes val with Some b => [len b] | None => [] end
  ∧ counters s'.2 = counters w
  ∧ (∀ h, h ≠ namedHistogram_Histogram (putSize (m mt)) →
          histograms s'.2 h = histograms w h)
  ∧ ticks s'.2 = ticks w ∧ clock s'.2 = clock w.
Proof.
  unfold measuredBatch_Put, this, store_puts, in_world.
  destruct (asBytes val) as [b|]; run;
    destruct (Batch_Put (putts mt) key val (store w)) as [r b'];
    cbn; rewrite ?app_nil_r; repeat split; try done; intros; by heap.
Qed.

Lemma measuredBatch_Delete_effect mt key w :
  let r := Batch_Delete (delts mt) key (store w) in
  let s' := (measuredBatch_Delete key (mt, w)).2 in
  (measuredBatch_Delete key (mt, w)).1 = r.1
  ∧ s'.1 = mkMeasuredBatch (puts mt) (wrap64 (deletes mt + 1))
             (putts mt) (delts mt) (m mt)
  ∧ store s'.2 = r.2
  ∧ counters s'.2 = counters w
  ∧ histograms s'.2 = histograms w
  ∧ ticks s'.2 = ticks w ∧ clock s'.2 = clock w.
Proof.
  unfold measuredBatch_Delete, this, store_deletes, in_world. run.
  by destruct (Batch_Delete (delts mt) key (store w)) as [r b'].
Qed.

(** C5: on a backend that is not a [datastore.Batching], [Batch] returns no
    batch and [datastore.ErrBatchUnsupported], and leaves the world (the
    registry, the metrics, the clock and the backend) as it was. *)
Theorem Batch_unsupported m w :
  ds_Batching (backend m) = None →
  measure_Batch m w = (Returned (None, Some ErrBatchUnsupported), w).
Proof. intros Hb. unfold measure_Batch. by rewrite Hb. Qed.
End Buffering.

Lemma Batch_unsupported_witness :
  measure_Batch plain_m example_w
  = (Returned (None, Some ErrBatchUnsupported), example_w).
Proof. apply Batch_unsupported. reflexivity. Defined.

(** ** Payload sizes *)

Section Sizes.
Context {B : Type}.
Implicit Types (ms : measure B) (mt : measuredBatch B) (w : World B).

Lemma put_each_cons ms kv kvs w :
  put_each ms (kv :: kvs) w = put_each ms kvs (measure_Put ms kv.1 kv.2 w).2.
Proof. reflexivity. Qed.

Lemma put_each_sizes ms kvs w :
  distinct_handles ms →
  Samples (put_each ms kvs w) (putSize ms)
  = Samples w (putSize ms) ++ (kvs ≫= λ kv, size_sample kv.2).
Proof.
  intros Hd. revert w. induction kvs as [|[key value] kvs IH]; intros w.
  - cbn. by rewrite app_nil_r.
  - rewrite put_each_cons, IH. cbn [fst snd].
    destruct (measure_Put_effect ms key value w Hd) as (_ & _ & _ & _ & _ & ->).
    cbn. by rewrite <- app_assoc.
Qed.

Lemma bytes_put_samples (payloads : list (Key * list byte)) :
  (bytes_put <$> payloads) ≫= (λ kv, size_sample kv.2)
  = (λ kb, len kb.2) <$> payloads.
Proof. induction payloads as [|kb payloads IH]; cbn; [done|]. by f_equal. Qed.

(** C8: a put, direct or buffered in a batch, adds the length of the value
    to the put-size histogram when the value is a [[]byte] and adds nothing
    otherwise, whatever the backend answers; a get adds the length of the
    returned value to the get-size histogram when the backend returned no
    error and the value is a [[]byte], and nothing otherwise; and after
    the puts of a list of byte payloads the put-size histogram has
    received the lengths of the payloads, one per put, in order. *)
Theorem sizes_sampled ms mt key value (payloads : list (Key * list byte)) w :
  distinct_handles ms →
  Samples (measure_Put ms key value w).2 (putSize ms)
  = Samples w (putSize ms) ++ size_sample value
  ∧ Samples (measuredBatch_Put key value (mt, w)).2.2 (putSize (m mt))
    = Samples w (putSize (m mt)) ++ size_sample value
  ∧ Samples (measure_Get ms key w).2 (getSize ms)
    = Samples w (getSize ms) ++
        match (ds_Get (backend ms) key (store w)).1 with
        | Returned (found, None) => size_sample found
        | _ => []
        end
  ∧ Samples (put_each ms (bytes_put <$> payloads) w) (putSize ms)
    = Samples w (putSize ms) ++ ((λ kb, len kb.2) <$> payloads).
Proof.
  intros Hd. repeat split.
  - by apply measure_Put_effect.
  - by apply measuredBatch_Put_effect.
  - by apply measure_Get_effect.
  - by rewrite put_each_sizes, bytes_put_samples.
Qed.
End Sizes.

Lemma sizes_sampled_witness :
  Samples (put_each example_m
             (bytes_put <$> [("a", hello); ("b", []); ("c", hello)])
             example_w) (putSize example_m)
  = [5; 0; 5].
Proof.
  destruct (sizes_sampled example_m
              (mkMeasuredBatch 0 0 (recorderBatch example_script 0)
                 (recorderBatch example_script 1) example_m)
              "a" (VBytes hello) [("a", hello); ("b", []); ("c", hello)]
              example_w example_distinct) as (_ & _ & _ & ->).
  vm_compute. reflexivity.
Defined.

(** ** Batches: commit *)

Section Commit.
Context {B : Type}.
Implicit Types (mt : measuredBatch B) (w : World B) (b : Batch B).

(** The loop of [logBatchCommit]. *)
Lemma times_Update n h v w :
  times n (Histogram_Update h v) w
  = (Returned (),
     set_histograms (Nat.iter n (λ hs, <[h := hs h ++ [v]]> hs) (histograms w))
       (nextHistogram w) w).
Proof.
  revert w. induction n as [|n IH]; intros w.
  - by destruct w.
  - cbn [times]. unfold bind. unfold Histogram_Update at 1.
    rewrite IH, Nat.iter_succ_r. reflexivity.
Qed.

Lemma iter_Update_at n h v (hs : Histogram → list Z) :
  Nat.iter n (λ hs, <[h := hs h ++ [v]]> hs) hs h = hs h ++ replicate n v.
Proof.
  induction n as [|n IH].
  - cbn. by rewrite app_nil_r.
  - by rewrite Nat.iter_succ, fn_lookup_insert, IH, replicate_S_end, app_assoc.
Qed.

Lemma iter_Update_other n h h' v (hs : Histogram → list Z) :
  h ≠ h' → Nat.iter n (λ hs, <[h := hs h ++ [v]]> hs) hs h' = hs h'.
Proof.
  intros Hne. induction n as [|n IH]; [done|].
  by rewrite Nat.iter_succ, fn_lookup_insert_ne.
Qed.

Lemma amortized_skipped w start n : n ≤ 0 → amortized w start n = [].
Proof. intros Hn. unfold amortized. by replace (Z.to_nat n) with 0%nat by lia. Qed.

(** An empty sub-batch: nothing happens. *)
Lemma logBatchCommit_skip b n num errs lat w :
  n ≤ 0 → logBatchCommit b n num errs lat w = (Returned None, w).
Proof.
  intros Hn. unfold logBatchCommit.
  by destruct (Z.ltb_spec 0 n); [lia|].
Qed.

(** A sub-batch of [n] operations: the backend commits between two
    readings of the clock; unless it panics, the count grows by [n], the
    latency receives [n] samples, and the error counter grows by one when
    the commit returned an error.  Nothing else changes. *)
Lemma logBatchCommit_effect b n num errs lat w :
  0 < n → num ≠ errs →
  let r := Batch_Commit b (store w) in
  let out := logBatchCommit b n num errs lat w in
  out.1 = r.1 ∧ store out.2 = r.2 ∧ clock out.2 = clock w
  ∧ (∀ c, c ≠ num → c ≠ errs → counters out.2 c = counters w c)
  ∧ (∀ h, h ≠ namedHistogram_Histogram lat → histograms out.2 h = histograms w h)
  ∧ match r.1 with
    | Returned err =>
        ticks out.2 = S (S (ticks w))
        ∧ counters out.2 num = wrap64 (counters w num + n)
        ∧ counters out.2 errs =
            (if err is Some _ then wrap64 (counters w errs + 1)
             else counters w errs)
        ∧ Samples out.2 lat = Samples w lat ++ amortized w (ticks w) n
    | Panicked _ =>
        ticks out.2 = S (ticks w)
        ∧ counters out.2 num = counters w num
        ∧ counters out.2 errs = counters w errs
        ∧ Samples out.2 lat = Samples w lat
    end.
Proof.
  intros Hn Hne. unfold logBatchCommit, amortized.
  destruct (Z.ltb_spec 0 n); [|lia].
  unfold mbind, M_bind, bind, time_Now, call, Counter_Inc.
  cbn [store set_ticks].
  destruct (Batch_Commit b (store w)) as [[[e|]|msg] b']; [| |done].
  all: rewrite times_Update; run; cbn [fst snd]; heap.
  all: rewrite iter_Update_at.
  all: split_and!; try done; intros; heap; by try apply iter_Update_other.
Qed.

(** The handles [Commit] works with are distinct. *)
Lemma commit_handles_distinct (ms : measure B) :
  distinct_handles ms →
  namedCounter_Counter (deleteCount ms) ≠ namedCounter_Counter (deleteErr ms)
  ∧ namedCounter_Counter (putCount ms) ≠ namedCounter_Counter (putErr ms)
  ∧ namedCounter_Counter (putCount ms) ≠ namedCounter_Counter (deleteCount ms)
  ∧ namedCounter_Counter (putCount ms) ≠ namedCounter_Counter (deleteErr ms)
  ∧ namedCounter_Counter (putErr ms) ≠ namedCounter_Counter (deleteCount ms)
  ∧ namedCounter_Counter (putErr ms) ≠ namedCounter_Counter (deleteErr ms)
  ∧ namedHistogram_Histogram (putLatency ms)
    ≠ namedHistogram_Histogram (deleteLatency ms).
Proof. intros Hd. distinct Hd. done. Qed.

(** The two steps of [Commit]. *)
Abbreviation commit_deletes mt :=
  (logBatchCommit (delts mt) (deletes mt)
     (namedCounter_Counter (deleteCount (m mt)))
     (namedCounter_Counter (deleteErr (m mt))) (deleteLatency (m mt))).
Abbreviation commit_puts mt :=
  (logBatchCommit (putts mt) (puts mt)
     (namedCounter_Counter (putCount (m mt)))
     (namedCounter_Counter (putErr (m mt))) (putLatency (m mt))).

Lemma measuredBatch_Commit_steps mt w :
  measuredBatch_Commit mt w
  = match (commit_deletes mt w).1 with
    | Returned None => commit_puts mt (commit_deletes mt w).2
    | _ => commit_deletes mt w
    end.
Proof.
  unfold measuredBatch_Commit, mbind, M_bind, bind.
  destruct (commit_deletes mt w) as [[[e|]|msg] w1]; cbn [fst snd]; [done| |done].
  by destruct (commit_puts mt w1) as [[[e|]|msg] w2].
Qed.

(** What the commit of a non-empty delete sub-batch does to the delete
    metrics; it leaves the put metrics alone. *)
Lemma commit_deletes_effect mt w :
  distinct_handles (m mt) → 0 < deletes mt →
  let r := Batch_Commit (delts mt) (store w) in
  let out := commit_deletes mt w in
  out.1 = r.1 ∧ store out.2 = r.2 ∧ clock out.2 = clock w
  ∧ Count out.2 (putCount (m mt)) = Count w (putCount (m mt))
  ∧ Count out.2 (putErr (m mt)) = Count w (putErr (m mt))
  ∧ Samples out.2 (putLatency (m mt)) = Samples w (putLatency (m mt))
  ∧ match r.1 with
    | Returned err =>
        ticks out.2 = S (S (ticks w))
        ∧ Count out.2 (deleteCount (m mt))
          = wrap64 (Count w (deleteCount (m mt)) + deletes mt)
        ∧ Count out.2 (deleteErr (m mt)) =
            (if err is Some _ then wrap64 (Count w (deleteErr (m mt)) + 1)
             else Count w (deleteErr (m mt)))
        ∧ Samples out.2 (deleteLatency (m mt))
          = Samples w (deleteLatency (m mt)) ++ amortized w (ticks w) (deletes mt)
    | Panicked _ =>
        ticks out.2 = S (ticks w)
        ∧ Count out.2 (deleteCount (m mt)) = Count w (deleteCount (m mt))
        ∧ Count out.2 (deleteErr (m mt)) = Count w (deleteErr (m mt))
        ∧ Samples out.2 (deleteLatency (m mt)) = Samples w (deleteLatency (m mt))
    end.
Proof.
  intros Hd HD.
  destruct (commit_handles_distinct _ Hd) as (Hne & ? & ? & ? & ? & ? & ?).
  destruct (logBatchCommit_effect (delts mt) (deletes mt) _ _
              (deleteLatency (m mt)) w HD Hne) as (? & ? & ? & Hcs & Hhs & ?).
  unfold Count, Samples. split_and!; try done; (apply Hcs || apply Hhs); congruence.
Qed.

(** The same for a non-empty put sub-batch. *)
Lemma commit_puts_effect mt w :
  distinct_handles (m mt) → 0 < puts mt →
  let r := Batch_Commit (putts mt) (store w) in
  let out := commit_puts mt w in
  out.1 = r.1 ∧ store out.2 = r.2 ∧ clock out.2 = clock w
  ∧ Count out.2 (deleteCount (m mt)) = Count w (deleteCount (m mt))
  ∧ Count out.2 (deleteErr (m mt)) = Count w (deleteErr (m mt))
  ∧ Samples out.2 (deleteLatency (m mt)) = Samples w (deleteLatency (m mt))
  ∧ match r.1 with
    | Returned err =>
        ticks out.2 = S (S (ticks w))
        ∧ Count out.2 (putCount (m mt))
          = wrap64 (Count w (putCount (m mt)) + puts mt)
        ∧ Count out.2 (putErr (m mt)) =
            (if err is Some _ then wrap64 (Count w (putErr (m mt)) + 1)
             else Count w (putErr (m mt)))
        ∧ Samples out.2 (putLatency (m mt))
          = Samples w (putLatency (m mt)) ++ amortized w (ticks w) (puts mt)
    | Panicked _ =>
        ticks out.2 = S (ticks w)
        ∧ Count out.2 (putCount (m mt)) = Count w (putCount (m mt))
        ∧ Count out.2 (putErr (m mt)) = Count w (putErr (m mt))
        ∧ Samples out.2 (putLatency (m mt)) = Samples w (putLatency (m mt))
    end.
Proof.
  intros Hd HP.
  destruct (commit_handles_distinct _ Hd) as (? & Hne & ? & ? & ? & ? & ?).
  destruct (logBatchCommit_effect (putts mt) (puts mt) _ _
              (putLatency (m mt)) w HP Hne) as (? & ? & ? & Hcs & Hhs & ?).
  unfold Count, Samples. split_and!; try done; (apply Hcs || apply Hhs); congruence.
Qed.

Lemma amortized_same_clock w w' start n :
  clock w' = clock w → amortized w' start n = amortized w start n.
Proof. intros Hclock. unfold amortized, elapsed. by rewrite Hclock. Qed.

(** C1: a batch holds [P = puts mt] and [D = deletes mt] buffered
    operations.  When [Commit] returns no error, the put count has grown
    by [P] and the put-latency histogram has received [P] samples, each
    the microseconds the put commit took divided by [P] (truncating); the
    same for the deletes with [D].  (The put commit is timed by the two
    clock readings that follow those of the delete commit, when there is
    one.)  When [P] is 0 the put commit is not called (the backend is in
    the state the delete commit, if any, left) and the put counters and
    histogram are as before; the same for [D]. *)
Theorem commit_amortizes mt w :
  distinct_handles (m mt) →
  let P := puts mt in
  let D := deletes mt in
  let out := measuredBatch_Commit mt w in
  let put_start := if 0 <? D then S (S (ticks w)) else ticks w in
  (out.1 = Returned None →
     (0 < P → Count out.2 (putCount (m mt)) = wrap64 (Count w (putCount (m mt)) + P))
     ∧ Samples out.2 (putLatency (m mt))
       = Samples w (putLatency (m mt)) ++ amortized w put_start P
     ∧ (0 < D →
        Count out.2 (deleteCount (m mt)) = wrap64 (Count w (deleteCount (m mt)) + D))
     ∧ Samples out.2 (deleteLatency (m mt))
       = Samples w (deleteLatency (m mt)) ++ amortized w (ticks w) D)
  ∧ (P = 0 →
     store out.2 = (if 0 <? D then (Batch_Commit (delts mt) (store w)).2 else store w)
     ∧ Count out.2 (putCount (m mt)) = Count w (putCount (m mt))
     ∧ Count out.2 (putErr (m mt)) = Count w (putErr (m mt))
     ∧ Samples out.2 (putLatency (m mt)) = Samples w (putLatency (m mt)))
  ∧ (D = 0 →
     store out.2 = (if 0 <? P then (Batch_Commit (putts mt) (store w)).2 else store w)
     ∧ Count out.2 (deleteCount (m mt)) = Count w (deleteCount (m mt))
     ∧ Count out.2 (deleteErr (m mt)) = Count w (deleteErr (m mt))
     ∧ Samples out.2 (deleteLatency (m mt)) = Samples w (deleteLatency (m mt))).
Proof.
  intros Hd P D out put_start. subst P D out put_start.
  rewrite measuredBatch_Commit_steps.
  destruct (Z.ltb_spec 0 (deletes mt)) as [HD|HD];
    destruct (Z.ltb_spec 0 (puts mt)) as [HP|HP].
  - (* both sub-batches are committed *)
    split; [|split; intros; lia].
    destruct (commit_deletes_effect mt w Hd HD)
      as (Hr1 & _ & Hclock & Hpc & _ & Hpl & Hdel).
    destruct (commit_puts_effect mt (commit_deletes mt w).2 Hd HP)
      as (Hr2 & _ & _ & Hdc & _ & Hdl & Hput).
    destruct (Batch_Commit (delts mt) (store w)).1 as [[e|]|msg];
      rewrite Hr1; [by rewrite Hr1| |by rewrite Hr1].
    intros Hok. rewrite Hr2 in Hok. rewrite Hok in Hput.
    destruct Hdel as (Hticks & Hdc' & _ & Hdl'), Hput as (_ & Hpc' & _ & Hpl').
    rewrite Hpc', Hpl', Hpc, Hpl, Hdc, Hdl, Hdc', Hdl', Hticks.
    by rewrite (amortized_same_clock w).
  - (* only the delete sub-batch is committed *)
    rewrite (amortized_skipped _ _ (puts mt)), app_nil_r by done.
    destruct (commit_deletes_effect mt w Hd HD)
      as (Hr1 & Hs1 & _ & Hpc & Hpe & Hpl & Hdel).
    assert ((match (commit_deletes mt w).1 with
             | Returned None => commit_puts mt (commit_deletes mt w).2
             | _ => commit_deletes mt w
             end) = commit_deletes mt w) as ->.
    { destruct (commit_deletes mt w) as [[[e|]|msg] w1]; cbn [fst snd]; [done| |done].
      by apply logBatchCommit_skip. }
    split; [|split; [done|intros; lia]].
    rewrite Hr1. intros Hok. rewrite Hok in Hdel.
    destruct Hdel as (_ & Hdc & _ & Hdl). split_and!; [intros; lia|done..].
  - (* only the put sub-batch is committed *)
    rewrite (amortized_skipped _ _ (deletes mt)), app_nil_r by done.
    rewrite logBatchCommit_skip by done. cbn [fst snd].
    destruct (commit_puts_effect mt w Hd HP)
      as (Hr2 & Hs2 & _ & Hdc & Hde & Hdl & Hput).
    split; [|split; [intros; lia|done]].
    rewrite Hr2. intros Hok. rewrite Hok in Hput.
    destruct Hput as (_ & Hpc & _ & Hpl). split_and!; [done..|intros; lia|done].
  - (* nothing is committed *)
    rewrite !amortized_skipped, !app_nil_r by done.
    rewrite logBatchCommit_skip by done. cbn [fst snd].
    rewrite logBatchCommit_skip by done. cbn [fst snd].
    split_and!; intros; split_and?; intros; lia || done.
Qed.

(** A delete sub-batch whose commit returns an error. *)
Lemma Commit_delete_fails mt w e :
  distinct_handles (m mt) →
  0 < deletes mt →
  (Batch_Commit (delts mt) (store w)).1 = Returned (Some e) →
  let out := measuredBatch_Commit mt w in
  out.1 = Returned (Some e)
  ∧ store out.2 = (Batch_Commit (delts mt) (store w)).2
  ∧ Count out.2 (deleteCount (m mt))
    = wrap64 (Count w (deleteCount (m mt)) + deletes mt)
  ∧ Samples out.2 (deleteLatency (m mt))
    = Samples w (deleteLatency (m mt)) ++ amortized w (ticks w) (deletes mt)
  ∧ Count out.2 (deleteErr (m mt)) = wrap64 (Count w (deleteErr (m mt)) + 1)
  ∧ Count out.2 (putCount (m mt)) = Count w (putCount (m mt))
  ∧ Count out.2 (putErr (m mt)) = Count w (putErr (m mt))
  ∧ Samples out.2 (putLatency (m mt)) = Samples w (putLatency (m mt)).
Proof.
  intros Hd HD Hfail out. subst out.
  destruct (commit_deletes_effect mt w Hd HD)
    as (Hr1 & Hs1 & _ & Hpc & Hpe & Hpl & Hdel).
  rewrite Hfail in Hr1, Hdel. destruct Hdel as (_ & Hdc & Hde & Hdl).
  rewrite measuredBatch_Commit_steps, Hr1. done.
Qed.

(** A put sub-batch whose commit returns an error, the delete sub-batch
    having been skipped or committed without error. *)
Lemma Commit_put_fails mt w e :
  distinct_handles (m mt) →
  0 < puts mt →
  let deleted := Batch_Commit (delts mt) (store w) in
  let before_put := if 0 <? deletes mt then deleted.2 else store w in
  let put_start := if 0 <? deletes mt then S (S (ticks w)) else ticks w in
  deletes mt ≤ 0 ∨ deleted.1 = Returned None →
  (Batch_Commit (putts mt) before_put).1 = Returned (Some e) →
  let out := measuredBatch_Commit mt w in
  out.1 = Returned (Some e)
  ∧ store out.2 = (Batch_Commit (putts mt) before_put).2
  ∧ Count out.2 (putCount (m mt)) = wrap64 (Count w (putCount (m mt)) + puts mt)
  ∧ Samples out.2 (putLatency (m mt))
    = Samples w (putLatency (m mt)) ++ amortized w put_start (puts mt)
  ∧ Count out.2 (putErr (m mt)) = wrap64 (Count w (putErr (m mt)) + 1).
Proof.
  intros Hd HP deleted before_put put_start Hdeleted Hfail out.
  subst deleted before_put put_start out.
  rewrite measuredBatch_Commit_steps.
  destruct (Z.ltb_spec 0 (deletes mt)) as [HD|HD].
  - destruct Hdeleted as [?|Hok]; [lia|].
    destruct (commit_deletes_effect mt w Hd HD)
      as (Hr1 & Hs1 & Hclock & Hpc & Hpe & Hpl & Hdel).
    rewrite Hok in Hr1, Hdel. destruct Hdel as (Hticks & _).
    destruct (commit_puts_effect mt (commit_deletes mt w).2 Hd HP)
      as (Hr2 & Hs2 & _ & _ & _ & _ & Hput).
    rewrite Hs1, Hfail in Hr2, Hput. destruct Hput as (_ & Hpc' & Hpe' & Hpl').
    rewrite Hr1, Hr2, Hs2, Hs1, Hpc', Hpe', Hpl', Hpc, Hpe, Hpl, Hticks.
    by rewrite (amortized_same_clock w).
  - rewrite logBatchCommit_skip by done. cbn [fst snd].
    destruct (commit_puts_effect mt w Hd HP)
      as (Hr2 & Hs2 & _ & _ & _ & _ & Hput).
    rewrite Hfail in Hr2, Hput. by destruct Hput as (_ & Hpc' & Hpe' & Hpl').
Qed.

(** C3: [Commit] commits the delete sub-batch first and the put sub-batch
    on the backend state that commit left.  When the commit of a
    non-empty delete sub-batch returns an error, [Commit] returns that
    error, the delete error counter has grown by one, and the put
    sub-batch is not committed: the backend is in the state the delete
    commit left and the put metrics are as before.  When the commit of a
    non-empty put sub-batch returns an error, [Commit] returns that error
    and the put error counter has grown by one. *)
Theorem commit_deletes_first mt w :
  distinct_handles (m mt) →
  let out := measuredBatch_Commit mt w in
  let deleted := Batch_Commit (delts mt) (store w) in
  let before_put := if 0 <? deletes mt then deleted.2 else store w in
  (0 < deletes mt → 0 < puts mt → deleted.1 = Returned None →
     out.1 = (Batch_Commit (putts mt) deleted.2).1
     ∧ store out.2 = (Batch_Commit (putts mt) deleted.2).2)
  ∧ (∀ e, 0 < deletes mt → deleted.1 = Returned (Some e) →
       out.1 = Returned (Some e)
       ∧ Count out.2 (deleteErr (m mt)) = wrap64 (Count w (deleteErr (m mt)) + 1)
       ∧ store out.2 = deleted.2
       ∧ Count out.2 (putCount (m mt)) = Count w (putCount (m mt))
       ∧ Count out.2 (putErr (m mt)) = Count w (putErr (m mt))
       ∧ Samples out.2 (putLatency (m mt)) = Samples w (putLatency (m mt)))
  ∧ (∀ e, 0 < puts mt →
       deletes mt ≤ 0 ∨ deleted.1 = Returned None →
       (Batch_Commit (putts mt) before_put).1 = Returned (Some e) →
       out.1 = Returned (Some e)
       ∧ Count out.2 (putErr (m mt)) = wrap64 (Count w (putErr (m mt)) + 1)).
Proof.
  intros Hd out deleted before_put. subst out deleted before_put.
  split; [|split].
  - intros HD HP Hok.
    destruct (commit_deletes_effect mt w Hd HD) as (Hr1 & Hs1 & _).
    destruct (commit_puts_effect mt (commit_deletes mt w).2 Hd HP)
      as (Hr2 & Hs2 & _).
    rewrite Hok in Hr1. rewrite Hs1 in Hr2, Hs2.
    by rewrite measuredBatch_Commit_steps, Hr1.
  - intros e HD Hfail.
    destruct (Commit_delete_fails mt w e Hd HD Hfail)
      as (? & ? & _ & _ & ? & ? & ? & ?).
    done.
  - intros e HP Hdeleted Hfail.
    destruct (Commit_put_fails mt w e Hd HP Hdeleted Hfail)
      as (? & _ & _ & _ & ?).
    done.
Qed.

(** C4: when the commit of a non-empty sub-batch returns an error, the
    sub-batch is measured all the same: its count has grown by the number
    of buffered operations and its latency histogram has received one
    sample per buffered operation, besides the one increment of its error
    counter. *)
Theorem failed_commit_is_measured mt w e :
  distinct_handles (m mt) →
  let out := measuredBatch_Commit mt w in
  let deleted := Batch_Commit (delts mt) (store w) in
  let before_put := if 0 <? deletes mt then deleted.2 else store w in
  let put_start := if 0 <? deletes mt then S (S (ticks w)) else ticks w in
  (0 < deletes mt → deleted.1 = Returned (Some e) →
     out.1 = Returned (Some e)
     ∧ Count out.2 (deleteCount (m mt))
       = wrap64 (Count w (deleteCount (m mt)) + deletes mt)
     ∧ Samples out.2 (deleteLatency (m mt))
       = Samples w (deleteLatency (m mt)) ++ amortized w (ticks w) (deletes mt)
     ∧ length (amortized w (ticks w) (deletes mt)) = Z.to_nat (deletes mt)
     ∧ Count out.2 (deleteErr (m mt)) = wrap64 (Count w (deleteErr (m mt)) + 1))
  ∧ (0 < puts mt →
     deletes mt ≤ 0 ∨ deleted.1 = Returned None →
     (Batch_Commit (putts mt) before_put).1 = Returned (Some e) →
     out.1 = Returned (Some e)
     ∧ Count out.2 (putCount (m mt)) = wrap64 (Count w (putCount (m mt)) + puts mt)
     ∧ Samples out.2 (putLatency (m mt))
       = Samples w (putLatency (m mt)) ++ amortized w put_start (puts mt)
     ∧ length (amortized w put_start (puts mt)) = Z.to_nat (puts mt)
     ∧ Count out.2 (putErr (m mt)) = wrap64 (Count w (putErr (m mt)) + 1)).
Proof.
  intros Hd out deleted before_put put_start.
  subst out deleted before_put put_start. split.
  - intros HD Hfail.
    destruct (Commit_delete_fails mt w e Hd HD Hfail) as (? & _ & ? & ? & ? & _).
    split_and!; try done. apply length_replicate.
  - intros HP Hdeleted Hfail.
    destruct (Commit_put_fails mt w e Hd HP Hdeleted Hfail)
      as (? & _ & ? & ? & ?).
    split_and!; try done. apply length_replicate.
Qed.
End Commit.

Lemma example_batch_distinct script P D : distinct_handles (m (example_batch script P D)).
Proof. split; apply (bool_decide_unpack _); vm_compute; exact I. Defined.

Lemma commit_amortizes_witness :
  let out := measuredBatch_Commit (example_batch always_ok 3 2) example_w in
  let deletes_only := measuredBatch_Commit (example_batch always_ok 0 2) example_w in
  Count out.2 (putCount example_m) = 3
  ∧ Samples out.2 (putLatency example_m) = [3; 3; 3]
  ∧ Count out.2 (deleteCount example_m) = 2
  ∧ Samples out.2 (deleteLatency example_m) = [5; 5]
  ∧ store deletes_only.2 = [CallCommit 1]
  ∧ Samples deletes_only.2 (putLatency example_m) = [].
Proof.
  destruct (commit_amortizes (example_batch always_ok 3 2) example_w
              (example_batch_distinct always_ok 3 2))
    as (Hok & _ & _).
  destruct Hok as (Hputs & Hput_samples & Hdeletes & Hdelete_samples);
    [vm_compute; reflexivity|].
  destruct (commit_amortizes (example_batch always_ok 0 2) example_w
              (example_batch_distinct always_ok 0 2))
    as (_ & Hempty & _).
  destruct Hempty as (Hstore & _ & _ & Hno_samples); [reflexivity|].
  cbv zeta. split_and!.
  - etransitivity; [apply Hputs|]; vm_compute; reflexivity.
  - etransitivity; [apply Hput_samples|]; vm_compute; reflexivity.
  - etransitivity; [apply Hdeletes|]; vm_compute; reflexivity.
  - etransitivity; [apply Hdelete_samples|]; vm_compute; reflexivity.
  - etransitivity; [apply Hstore|]; vm_compute; reflexivity.
  - etransitivity; [apply Hno_samples|]; vm_compute; reflexivity.
Defined.

Lemma commit_deletes_first_witness :
  let out := measuredBatch_Commit (example_batch full_disk 3 2) example_w in
  out.1 = Returned (Some (ErrOther "disk full"))
  ∧ Count out.2 (deleteErr example_m) = 1
  ∧ store out.2 = [CallCommit 1]
  ∧ Count out.2 (putCount example_m) = 0.
Proof.
  destruct (commit_deletes_first (example_batch full_disk 3 2) example_w
              (example_batch_distinct full_disk 3 2)) as (_ & Hfail & _).
  destruct (Hfail (ErrOther "disk full")) as (Hr & Herr & Hstore & Hput & _);
    [vm_compute; reflexivity.. |].
  cbv zeta. split_and!.
  - exact Hr.
  - etransitivity; [apply Herr|]; vm_compute; reflexivity.
  - etransitivity; [apply Hstore|]; vm_compute; reflexivity.
  - etransitivity; [apply Hput|]; vm_compute; reflexivity.
Defined.

Lemma failed_commit_is_measured_witness :
  let out := measuredBatch_Commit (example_batch full_disk 3 2) example_w in
  Count out.2 (deleteCount example_m) = 2
  ∧ Samples out.2 (deleteLatency example_m) = [5; 5]
  ∧ Count out.2 (deleteErr example_m) = 1.
Proof.
  destruct (failed_commit_is_measured (example_batch full_disk 3 2) example_w
              (ErrOther "disk full") (example_batch_distinct full_disk 3 2))
    as (Hfail & _).
  destruct Hfail as (_ & Hcount & Hsamples & _ & Herr); [vm_compute; reflexivity.. |].
  cbv zeta. split_and!.
  - etransitivity; [apply Hcount|]; vm_compute; reflexivity.
  - etransitivity; [apply Hsamples|]; vm_compute; reflexivity.
  - etransitivity; [apply Herr|]; vm_compute; reflexivity.
Defined.

(** ** Batches: what is buffered is what is committed *)

Section BufferedCounts.
Context {B : Type}.
Implicit Types (mt : measuredBatch B) (w : World B).

Lemma batch_op_effect op mt w :
  let s' := (batch_op op (mt, w)).2 in
  s'.1 = mkMeasuredBatch
           (if is_put op then wrap64 (puts mt + 1) else puts mt)
           (if is_delete op then wrap64 (deletes mt + 1) else deletes mt)
           (putts mt) (delts mt) (m mt)
  ∧ counters s'.2 = counters w
  ∧ ticks s'.2 = ticks w ∧ clock s'.2 = clock w
  ∧ (∀ h, h ≠ namedHistogram_Histogram (putSize (m mt)) →
          histograms s'.2 h = histograms w h).
Proof.
  destruct op as [key val|key]; cbn [batch_op is_put is_delete negb].
  - destruct (measuredBatch_Put_effect mt key val w)
      as (_ & ? & _ & _ & ? & ? & ? & ?).
    by destruct mt.
  - destruct (measuredBatch_Delete_effect mt key w)
      as (_ & ? & _ & ? & Hhs & ? & ?).
    rewrite Hhs. by destruct mt.
Qed.

Lemma batch_each_effect ops mt w :
  inInt64 (puts mt) → inInt64 (deletes mt) →
  let s' := batch_each ops (mt, w) in
  s'.1 = mkMeasuredBatch
           (wrap64 (puts mt + buffered is_put ops))
           (wrap64 (deletes mt + buffered is_delete ops))
           (putts mt) (delts mt) (m mt)
  ∧ counters s'.2 = counters w
  ∧ ticks s'.2 = ticks w ∧ clock s'.2 = clock w
  ∧ (∀ h, h ≠ namedHistogram_Histogram (putSize (m mt)) →
          histograms s'.2 h = histograms w h).
Proof.
  revert mt w. induction ops as [|op ops IH]; intros mt w Hputs Hdeletes.
  - cbn. rewrite !Z.add_0_r, !wrap64_inInt64 by done. by destruct mt.
  - cbv zeta. change (batch_each (op :: ops) (mt, w))
      with (batch_each ops (batch_op op (mt, w)).2).
    destruct (batch_op_effect op mt w) as (Hmt & Hcs & Hts & Hclock & Hhs).
    destruct (batch_op op (mt, w)).2 as [mt1 w1]. cbn [fst snd] in *.
    destruct (IH mt1 w1) as (-> & -> & -> & -> & Hhs').
    { rewrite Hmt. cbn. destruct (is_put op); [apply wrap64_range | done]. }
    { rewrite Hmt. cbn. destruct (is_delete op); [apply wrap64_range | done]. }
    subst mt1. cbn [puts deletes putts delts m buffered] in *.
    split_and!; try done.
    + f_equal.
      * destruct (is_put op); [by rewrite wrap64_add_l, Z.add_assoc | done].
      * destruct (is_delete op); [by rewrite wrap64_add_l, Z.add_assoc | done].
    + intros h Hh. by rewrite Hhs', Hhs.
Qed.

Lemma putLatency_not_putSize (ms : measure B) :
  distinct_handles ms →
  namedHistogram_Histogram (putLatency ms) ≠ namedHistogram_Histogram (putSize ms).
Proof. intros Hd. distinct Hd. done. Qed.

Lemma buffered_nonneg which ops : 0 ≤ buffered which ops.
Proof. induction ops as [|op ops IH]; cbn; [done|]. destruct (which op); lia. Qed.

Lemma deleteLatency_not_putSize (ms : measure B) :
  distinct_handles ms →
  namedHistogram_Histogram (deleteLatency ms) ≠ namedHistogram_Histogram (putSize ms).
Proof. intros Hd. distinct Hd. done. Qed.

(** A delete sub-batch whose commit comes back is measured with the
    buffered number of deletes, whatever the put sub-batch does then. *)
Lemma Commit_deletes_measured mt w :
  distinct_handles (m mt) →
  0 < deletes mt →
  returned (Batch_Commit (delts mt) (store w)).1 →
  let out := measuredBatch_Commit mt w in
  Count out.2 (deleteCount (m mt))
  = wrap64 (Count w (deleteCount (m mt)) + deletes mt)
  ∧ Samples out.2 (deleteLatency (m mt))
    = Samples w (deleteLatency (m mt)) ++ amortized w (ticks w) (deletes mt).
Proof.
  intros Hd HD Hreturned out. subst out.
  rewrite measuredBatch_Commit_steps.
  destruct (commit_deletes_effect mt w Hd HD)
    as (Hr1 & _ & _ & _ & _ & _ & Hdel).
  destruct (Batch_Commit (delts mt) (store w)).1 as [[e|]|msg]; [| |done].
  - rewrite Hr1. by destruct Hdel as (_ & ? & _ & ?).
  - rewrite Hr1. destruct Hdel as (_ & Hdc & _ & Hdl).
    destruct (Z.ltb_spec 0 (puts mt)) as [HP|HP].
    + destruct (commit_puts_effect mt
                  (logBatchCommit (delts mt) (deletes mt)
                     (namedCounter_Counter (deleteCount (m mt)))
                     (namedCounter_Counter (deleteErr (m mt)))
                     (deleteLatency (m mt)) w).2 Hd HP)
        as (_ & _ & _ & -> & _ & -> & _).
      done.
    + by rewrite logBatchCommit_skip.
Qed.

(** A put sub-batch whose commit comes back, the delete sub-batch having
    been skipped or committed without error, is measured with the
    buffered number of puts. *)
Lemma Commit_puts_measured mt w :
  distinct_handles (m mt) →
  0 < puts mt →
  let deleted := Batch_Commit (delts mt) (store w) in
  let before_put := if 0 <? deletes mt then deleted.2 else store w in
  let put_start := if 0 <? deletes mt then S (S (ticks w)) else ticks w in
  deletes mt ≤ 0 ∨ deleted.1 = Returned None →
  returned (Batch_Commit (putts mt) before_put).1 →
  let out := measuredBatch_Commit mt w in
  out.1 = (Batch_Commit (putts mt) before_put).1
  ∧ Count out.2 (putCount (m mt)) = wrap64 (Count w (putCount (m mt)) + puts mt)
  ∧ Samples out.2 (putLatency (m mt))
    = Samples w (putLatency (m mt)) ++ amortized w put_start (puts mt).
Proof.
  intros Hd HP deleted before_put put_start Hdeleted Hreturned out.
  subst deleted before_put put_start out.
  rewrite measuredBatch_Commit_steps.
  destruct (Z.ltb_spec 0 (deletes mt)) as [HD|HD].
  - destruct Hdeleted as [?|Hok]; [lia|].
    destruct (commit_deletes_effect mt w Hd HD)
      as (Hr1 & Hs1 & Hclock & Hpc & _ & Hpl & Hdel).
    rewrite Hok in Hr1, Hdel. destruct Hdel as (Hticks & _).
    rewrite Hr1.
    destruct (commit_puts_effect mt
                (logBatchCommit (delts mt) (deletes mt)
                   (namedCounter_Counter (deleteCount (m mt)))
                   (namedCounter_Counter (deleteErr (m mt)))
                   (deleteLatency (m mt)) w).2 Hd HP)
      as (Hr2 & _ & _ & _ & _ & _ & Hput).
    rewrite Hs1 in Hr2, Hput.
    destruct (Batch_Commit (putts mt) (Batch_Commit (delts mt) (store w)).2).1
      as [err|msg]; [|done].
    destruct Hput as (_ & Hpc' & _ & Hpl').
    rewrite Hr2, Hpc', Hpl', Hpc, Hpl, Hticks.
    by rewrite (amortized_same_clock w).
  - rewrite logBatchCommit_skip by done. cbn [fst snd].
    destruct (commit_puts_effect mt w Hd HP)
      as (Hr2 & _ & _ & _ & _ & _ & Hput).
    destruct (Batch_Commit (putts mt) (store w)).1 as [err|msg]; [|done].
    by destruct Hput as (_ & Hpc' & _ & Hpl').
Qed.

(** C10: [Put] and [Delete] of a batch add one to [puts], respectively
    [deletes], and return what the backend session returned, whether that
    is no error, an error or a panic: the counter is written before the
    call is forwarded.  So a batch opened with both counters at 0 holds,
    after any sequence of calls, the number [P] of its puts and the number
    [D] of its deletes, failed ones included, and these are the numbers
    [Commit] works with.  When the delete commit comes back, the delete
    count has grown by [D] and the delete latency has received [D]
    samples, each the elapsed microseconds divided by [D]; when the put
    commit is reached and comes back, the put count has grown by [P] and
    the put latency has received [P] samples, each the elapsed
    microseconds divided by [P]. *)
Theorem buffered_before_forwarding mt w key val ops :
  distinct_handles (m mt) →
  let put := measuredBatch_Put key val (mt, w) in
  let del := measuredBatch_Delete key (mt, w) in
  let s := batch_each ops (mt, w) in
  let P := buffered is_put ops in
  let D := buffered is_delete ops in
  (put.1 = (Batch_Put (putts mt) key val (store w)).1
   ∧ puts put.2.1 = wrap64 (puts mt + 1) ∧ deletes put.2.1 = deletes mt)
  ∧ (del.1 = (Batch_Delete (delts mt) key (store w)).1
     ∧ deletes del.2.1 = wrap64 (deletes mt + 1) ∧ puts del.2.1 = puts mt)
  ∧ (puts mt = 0 → deletes mt = 0 → P ≤ maxInt64 → D ≤ maxInt64 →
     let out := measuredBatch_Commit s.1 s.2 in
     let deleted := Batch_Commit (delts mt) (store s.2) in
     let before_put := if 0 <? D then deleted.2 else store s.2 in
     let put_start := if 0 <? D then S (S (ticks w)) else ticks w in
     s.1 = mkMeasuredBatch P D (putts mt) (delts mt) (m mt)
     ∧ (0 < D → returned deleted.1 →
        Count out.2 (deleteCount (m mt))
        = wrap64 (Count w (deleteCount (m mt)) + D)
        ∧ Samples out.2 (deleteLatency (m mt))
          = Samples w (deleteLatency (m mt)) ++ amortized w (ticks w) D)
     ∧ (0 < P → D = 0 ∨ deleted.1 = Returned None →
        returned (Batch_Commit (putts mt) before_put).1 →
        out.1 = (Batch_Commit (putts mt) before_put).1
        ∧ Count out.2 (putCount (m mt)) = wrap64 (Count w (putCount (m mt)) + P)
        ∧ Samples out.2 (putLatency (m mt))
          = Samples w (putLatency (m mt)) ++ amortized w put_start P)).
Proof.
  intros Hd put del s P D. subst put del s P D.
  split; [|split].
  - destruct (measuredBatch_Put_effect mt key val w) as (-> & -> & _). done.
  - destruct (measuredBatch_Delete_effect mt key w) as (-> & -> & _). done.
  - intros Hputs Hdeletes HP HD.
    pose proof (buffered_nonneg is_put ops) as HP0.
    pose proof (buffered_nonneg is_delete ops) as HD0.
    destruct (batch_each_effect ops mt w) as (Hmt & Hcs & Hts & Hclock & Hhs).
    { rewrite Hputs. by vm_compute. }
    { rewrite Hdeletes. by vm_compute. }
    rewrite Hputs, Hdeletes, !Z.add_0_l in Hmt.
    rewrite !wrap64_inInt64 in Hmt by (unfold inInt64, minInt64, maxInt64 in *; lia).
    destruct (batch_each ops (mt, w)) as [mt1 w1]. cbn [fst snd] in *. subst mt1.
    pose (mt' := mkMeasuredBatch (buffered is_put ops) (buffered is_delete ops)
                   (putts mt) (delts mt) (m mt)).
    split; [done|]. split.
    + intros HD' Hreturned.
      destruct (Commit_deletes_measured mt' w1 Hd HD' Hreturned) as (Hc & Hl).
      subst mt'. cbn [puts deletes putts delts m] in Hc, Hl.
      rewrite Hc, Hl. unfold Count, Samples.
      rewrite Hcs, Hhs by (by apply deleteLatency_not_putSize).
      f_equal. unfold amortized, elapsed. by rewrite Hts, Hclock.
    + intros HP' Hdeleted Hreturned.
      destruct (Commit_puts_measured mt' w1 Hd HP') as (Hr & Hc & Hl).
      { subst mt'. cbn [deletes delts].
        destruct Hdeleted as [->|?]; [left; lia|by right]. }
      { done. }
      subst mt'. cbn [puts deletes putts delts m] in Hr, Hc, Hl.
      rewrite Hr, Hc, Hl. unfold Count, Samples.
      rewrite Hcs, Hhs by (by apply putLatency_not_putSize).
      split_and!; try done. f_equal. rewrite Hts.
      unfold amortized, elapsed. by rewrite Hclock.
Qed.
End BufferedCounts.

Lemma buffered_before_forwarding_witness :
  let ops := [OpPut "a" (VBytes hello); OpDelete "x"; OpPut "b" VNil;
              OpDelete "y"; OpPut "c" VNil] in
  let s := batch_each ops (example_batch read_only 0 0, example_w) in
  puts s.1 = 3 ∧ deletes s.1 = 2
  ∧ Count (measuredBatch_Commit s.1 s.2).2 (deleteCount example_m) = 2
  ∧ Samples (measuredBatch_Commit s.1 s.2).2 (deleteLatency example_m) = [5; 5]
  ∧ Count (measuredBatch_Commit s.1 s.2).2 (putCount example_m) = 3
  ∧ Samples (measuredBatch_Commit s.1 s.2).2 (putLatency example_m) = [3; 3; 3].
Proof.
  destruct (buffered_before_forwarding (example_batch read_only 0 0) example_w
              "a" VNil
              [OpPut "a" (VBytes hello); OpDelete "x"; OpPut "b" VNil;
               OpDelete "y"; OpPut "c" VNil]
              (example_batch_distinct read_only 0 0)) as (_ & _ & Hseq).
  destruct Hseq as (Hmt & Hdeletes & Hputs); [vm_compute; done.. |].
  destruct Hdeletes as (Hdcount & Hdsamples); [vm_compute; done.. |].
  destruct Hputs as (_ & Hpcount & Hpsamples);
    [vm_compute; done | right; vm_compute; reflexivity | vm_compute; done |].
  cbv zeta. split_and!.
  - rewrite Hmt. vm_compute. reflexivity.
  - rewrite Hmt. vm_compute. reflexivity.
  - etransitivity; [apply Hdcount|]. vm_compute. reflexivity.
  - etransitivity; [apply Hdsamples|]. vm_compute. reflexivity.
  - etransitivity; [apply Hpcount|]. vm_compute. reflexivity.
  - etransitivity; [apply Hpsamples|]. vm_compute. reflexivity.
Defined.

(** ** Teardown *)

Section TeardownClaims.
Context {B : Type}.
Implicit Types (ms : measure B) (w : World B).

Lemma lookup_unregistered (names : list string) (r : gmap string Metric) name :
  foldl (λ r name, delete name r) r names !! name
  = if decide (name ∈ names) then None else r !! name.
Proof.
  revert r. induction names as [|n names IH]; intros r; cbn [foldl].
  - rewrite decide_False; [done|]. apply not_elem_of_nil.
  - rewrite IH. destruct (decide (name = n)) as [->|Hne].
    + rewrite lookup_delete_eq, (decide_True (P := n ∈ n :: names)) by left.
      by destruct (decide (n ∈ names)).
    + rewrite lookup_delete_ne by done.
      destruct (decide (name ∈ names)) as [Hin|Hout].
      * by rewrite decide_True by by right.
      * rewrite decide_False; [done|]. by apply not_elem_of_cons.
Qed.

Lemma measure_Close_effect ms w :
  let out := measure_Close ms w in
  registry out.2 = foldl (λ r name, delete name r) (registry w) (handle_names ms)
  ∧ counters out.2 = counters w ∧ histograms out.2 = histograms w
  ∧ match ds_Closer (backend ms) with
    | Some c_Close => out.1 = (c_Close (store w)).1 ∧ store out.2 = (c_Close (store w)).2
    | None => out.1 = Returned None ∧ store out.2 = store w
    end.
Proof.
  destruct w as [r cs nc hs nh cl t b]. unfold measure_Close. run_fields.
  destruct (ds_Closer (backend ms)) as [c_Close|]; run_fields; [|done].
  by destruct (c_Close b) as [out b'].
Qed.

(** C7: [Close] unregisters the 17 names of the wrapper's handles, whether
    or not they are registered and whatever the backend is: afterwards
    none of them is in the registry, and the other names are as before.
    Then, when the backend is an [io.Closer], it is closed (once) and
    [Close] returns what that call returned; when it is not, [Close]
    returns no error and the backend is as before. *)
Theorem Close_unregisters ms w :
  let out := measure_Close ms w in
  length (handle_names ms) = 17%nat
  ∧ (∀ name, registry out.2 !! name
             = if decide (name ∈ handle_names ms) then None else registry w !! name)
  ∧ match ds_Closer (backend ms) with
    | Some c_Close => out.1 = (c_Close (store w)).1 ∧ store out.2 = (c_Close (store w)).2
    | None => out.1 = Returned None ∧ store out.2 = store w
    end.
Proof.
  destruct (measure_Close_effect ms w) as (Hr & _ & _ & Hclose).
  cbv zeta. split; [done|]. split; [|done].
  intros name. rewrite Hr. apply lookup_unregistered.
Qed.
End TeardownClaims.

(** ** Construction *)

Section Construction.
Context {B : Type}.
Implicit Types (ds : Datastore B) (w : World B).

Lemma metric_names_ne prefix (s1 s2 : string) :
  s1 ≠ s2 → prefix +:+ s1 ≠ prefix +:+ s2.
Proof. intros Hne Heq. by apply (inj (String.app prefix)) in Heq. Qed.

(** The outcome of [New], the registry it leaves and the cells it
    allocates, by running its seventeen registrations one after the other. *)
Lemma New_run prefix ds w :
  let out := New prefix ds w in
  match first_taken (metric_names prefix) (registry w) with
  | Some name => out.1 = Panicked (duplicate_metric name)
  | None =>
      let ms := New_result prefix ds (nextCounter w) (nextHistogram w) in
      out.1 = Returned ms
      ∧ registry out.2
        = foldl (λ r h, <[h.1 := h.2]> r) (registry w) (handles ms)
      ∧ store out.2 = store w
  end.
Proof.
  destruct w as [r cs nc hs nh cl t b].
  unfold New, registerCounter, registerHistogram. run_fields.
  cbn [first_taken metric_names metric_suffixes fmap list_fmap].
  repeat lazymatch goal with
         | |- match match ?x with Some _ => _ | None => _ end with
              | Some _ => _
              | None => _
              end =>
             destruct x; [reflexivity|];
             run_fields; rewrite ?lookup_insert_ne by (apply metric_names_ne; discriminate)
         end.
  done.
Qed.

Lemma first_taken_None names (r : gmap string Metric) :
  (∀ name, name ∈ names → r !! name = None) → first_taken names r = None.
Proof.
  induction names as [|n names IH]; intros Hfree; cbn; [done|].
  rewrite Hfree by left. apply IH. intros name Hname. apply Hfree. by right.
Qed.

Lemma first_taken_Some pre name post (r : gmap string Metric) :
  (∀ n, n ∈ pre → r !! n = None) → is_Some (r !! name) →
  first_taken (pre ++ name :: post) r = Some name.
Proof.
  intros Hfree [x Hx]. induction pre as [|n pre IH]; cbn.
  - by rewrite Hx.
  - rewrite Hfree by left. apply IH. intros n' Hn'. apply Hfree. by right.
Qed.

Lemma dom_registered (l : list (string * Metric)) (r : gmap string Metric) :
  dom (foldl (λ r h, <[h.1 := h.2]> r) r l) = dom r ∪ list_to_set l.*1.
Proof.
  revert r. induction l as [|h l IH]; intros r; cbn [foldl fmap list_fmap list_to_set].
  - by rewrite union_empty_r_L.
  - by rewrite IH, dom_insert_L, (comm_L (∪) {[h.1]}), <- (assoc_L (∪)).
Qed.

Lemma size_registered (l : list (string * Metric)) (r : gmap string Metric) :
  NoDup l.*1 → (∀ name, name ∈ l.*1 → r !! name = None) →
  size (foldl (λ r h, <[h.1 := h.2]> r) r l) = (size r + length l)%nat.
Proof.
  revert r. induction l as [|h l IH]; intros r Hnodup Hfree; cbn [foldl length].
  - lia.
  - cbn [fmap list_fmap] in Hnodup, Hfree. apply NoDup_cons in Hnodup as [Hh Hnodup].
    rewrite IH; [|done|].
    + rewrite map_size_insert_None; [lia|]. apply Hfree. by left.
    + intros name Hname. rewrite lookup_insert_ne.
      * apply Hfree. by right.
      * intros <-. done.
Qed.

Lemma metric_names_NoDup prefix : NoDup (metric_names prefix).
Proof.
  apply (NoDup_fmap_2 (String.app prefix)).
  apply (bool_decide_unpack _). by vm_compute.
Qed.

Lemma spec_names_prefix prefix : spec_names prefix = String.app prefix <$> spec_names "".
Proof. reflexivity. Qed.

Lemma metric_names_spec prefix : metric_names prefix ≡ₚ spec_names prefix.
Proof.
  rewrite spec_names_prefix. apply fmap_Permutation.
  apply (bool_decide_unpack _). by vm_compute.
Qed.

Lemma New_result_names prefix ds c h :
  handle_names (New_result prefix ds c h) = metric_names prefix.
Proof. reflexivity. Qed.

(** The handles of the wrapper [New] returns are distinct objects. *)
Lemma New_result_distinct prefix ds c h :
  distinct_handles (New_result prefix ds c h).
Proof.
  split; cbn; rewrite ?NoDup_cons, ?not_elem_of_cons;
    split_and!; (lia || apply not_elem_of_nil || apply NoDup_nil_2).
Qed.

Lemma New_distinct_handles prefix ds w ms :
  (New prefix ds w).1 = Returned ms → distinct_handles ms.
Proof.
  intros Hnew. pose proof (New_run prefix ds w) as Hrun. cbv zeta in Hrun.
  destruct (first_taken _ _); [congruence|].
  destruct Hrun as (Hms & _). rewrite Hnew in Hms. injection Hms as ->.
  apply New_result_distinct.
Qed.

(** C6: [New] registers the 17 names [<prefix>.<operation>.<signal>] of
    the naming convention, in the order of the source.  When none of them
    is registered, [New] returns the wrapper and the registry holds
    exactly these 17 names more; a second [New] with the same prefix then
    panics on the first name.  In general, when some of the names is
    registered, [New] panics with the message for the first such name in
    registration order. *)
Theorem New_registers prefix ds ds' w :
  let out := New prefix ds w in
  let ms := New_result prefix ds (nextCounter w) (nextHistogram w) in
  metric_names prefix ≡ₚ spec_names prefix
  ∧ length (metric_names prefix) = 17%nat
  ∧ NoDup (metric_names prefix)
  ∧ handle_names ms = metric_names prefix
  ∧ ((∀ name, name ∈ metric_names prefix → registry w !! name = None) →
     out.1 = Returned ms
     ∧ dom (registry out.2) = dom (registry w) ∪ list_to_set (metric_names prefix)
     ∧ size (registry out.2) = (size (registry w) + 17)%nat
     ∧ (New prefix ds' out.2).1
       = Panicked (duplicate_metric (prefix +:+ ".put.count")))
  ∧ (∀ pre name post,
       metric_names prefix = pre ++ name :: post →
       (∀ n, n ∈ pre → registry w !! n = None) →
       is_Some (registry w !! name) →
       out.1 = Panicked (duplicate_metric name)).
Proof.
  intros out ms. subst out ms.
  split; [apply metric_names_spec|]. split; [done|].
  split; [apply metric_names_NoDup|]. split; [done|]. split.
  - intros Hfree. pose proof (New_run prefix ds w) as Hrun. cbv zeta in Hrun.
    rewrite first_taken_None in Hrun by done.
    destruct Hrun as (Hms & Hregistry & _).
    split; [done|]. rewrite Hregistry.
    split; [apply dom_registered|]. split.
    + rewrite size_registered; [done|apply metric_names_NoDup|done].
    + pose proof (New_run prefix ds' (New prefix ds w).2) as Hagain.
      cbv zeta in Hagain. rewrite Hregistry in Hagain.
      match type of Hagain with
      | context [first_taken _ ?r] =>
          assert (first_taken (metric_names prefix) r
                  = Some (prefix +:+ ".put.count")) as Htaken
      end.
      { change (metric_names prefix)
          with ([] ++ (prefix +:+ ".put.count")
                   :: (String.app prefix <$> tail metric_suffixes)).
        apply first_taken_Some.
        - intros n Hn. by apply elem_of_nil in Hn.
        - apply elem_of_dom. rewrite dom_registered.
          apply elem_of_union_r, elem_of_list_to_set. by left. }
      by rewrite Htaken in Hagain.
  - intros pre name post Hnames Hfree Htaken.
    pose proof (New_run prefix ds w) as Hrun. cbv zeta in Hrun.
    by rewrite Hnames, (first_taken_Some pre name post) in Hrun.
Qed.
End Construction.

Lemma New_registers_witness :
  (New "ds" example_ds example_w).1 = Returned example_m
  ∧ size (registry (New "ds" example_ds example_w).2) = 17%nat
  ∧ (New "ds" example_ds (New "ds" example_ds example_w).2).1
    = Panicked (duplicate_metric "ds.put.count").
Proof.
  destruct (New_registers "ds" example_ds example_ds example_w)
    as (_ & _ & _ & _ & Hfree & _).
  destruct Hfree as (Hm & _ & Hsize & Hagain).
  { intros name _. apply lookup_empty. }
  split_and!; [exact Hm | exact Hsize | exact Hagain].
Defined.

Lemma Close_unregisters_witness :
  let w := (New "ds" example_ds example_w).2 in
  registry (measure_Close example_m w).2 !! "ds.get.size" = None
  ∧ (measure_Close example_m w).1 = Returned None
  ∧ store (measure_Close example_m w).2 = [CallClose].
Proof.
  destruct (Close_unregisters example_m (New "ds" example_ds example_w).2)
    as (_ & Hregistry & Hresult & Hstore).
  cbv zeta. split_and!.
  - rewrite Hregistry. by vm_compute.
  - exact Hresult.
  - rewrite Hstore. by vm_compute.
Defined.

(** ** The scenario of the specification *)

Example scenario_metrics :
  (New "ds" example_ds example_w).1 = Returned example_m
  ∧ Count scenario (putCount example_m) = 4
  ∧ Samples scenario (putSize example_m) = [5]
  ∧ Count scenario (getCount example_m) = 1
  ∧ Count scenario (getErr example_m) = 1
  ∧ Samples scenario (putLatency example_m) = [10; 3; 3; 3]
  ∧ Count scenario (deleteCount example_m) = 0
  ∧ Samples scenario (deleteLatency example_m) = []
  ∧ store scenario
    = [CallPut "a" (VBytes hello); CallGet "b"; CallBatch; CallBatch;
       CallBatchPut 2 "c" VNil; CallBatchPut 2 "d" VNil; CallBatchPut 2 "e" VNil;
       CallCommit 2].
Proof. vm_compute. split_and!; reflexivity. Qed.

(** * Further properties

    What the code does at its edges, and how its functions compose. *)

(** ** What the operations leave alone *)

Section Frames.
Context {B : Type}.
Implicit Types (ms : measure B) (mt : measuredBatch B) (w : World B).

Lemma not_elem_of_2 {A} (x a b : A) : x ∉ [a; b] → a ≠ x ∧ b ≠ x.
Proof.
  intros [Ha [Hb _]%not_elem_of_cons]%not_elem_of_cons. by split.
Qed.

Lemma not_elem_of_1 {A} (x a : A) : x ∉ [a] → a ≠ x.
Proof. intros [Ha _]%not_elem_of_cons. done. Qed.

Ltac frame :=
  unfold touches_only; run; cbn [fst snd];
  split_and!; try done;
  intros x Hx;
  first [ apply not_elem_of_2 in Hx as [? ?] | apply not_elem_of_1 in Hx ];
  heap; done.

End Frames.

(** ** Opening and filling a batch *)

Section Batching.
Context {B : Type}.
Implicit Types (ms : measure B) (mt : measuredBatch B) (w : World B).

(** X12: on a batching backend, [Batch] opens two sessions, the one for
    the puts first and the one for the deletes on the state the first
    call left, and returns a batch with no operation buffered.  When the
    first call returns an error the second session is not opened; an
    error of either call is returned without a batch.  Opening a batch
    reads no clock and touches no counter, no histogram and no name. *)
Theorem Batch_opens_two_sessions ms w bds_Batch :
  ds_Batching (backend ms) = Some bds_Batch →
  let first := bds_Batch (store w) in
  let second := bds_Batch first.2 in
  let out := measure_Batch ms w in
  (registry out.2 = registry w ∧ counters out.2 = counters w
   ∧ histograms out.2 = histograms w ∧ ticks out.2 = ticks w)
  ∧ match first.1 with
    | Panicked msg => out.1 = Panicked msg ∧ store out.2 = first.2
    | Returned (pb, Some e) =>
        out.1 = Returned (None, Some e) ∧ store out.2 = first.2
    | Returned (pb, None) =>
        store out.2 = second.2
        ∧ match second.1 with
          | Panicked msg => out.1 = Panicked msg
          | Returned (db, Some e) => out.1 = Returned (None, Some e)
          | Returned (db, None) =>
              out.1 = Returned (Some (mkMeasuredBatch 0 0 pb db ms), None)
          end
    end.
Proof.
  intros Hb. cbv zeta. unfold measure_Batch. rewrite Hb. run.
  destruct (bds_Batch (store w)) as [[[pb [e|]]|msg] b1]; cbn; [done| |done].
  by destruct (bds_Batch b1) as [[[db [e|]]|msg] b2].
Qed.

Lemma batch_op_sizes op mt w :
  let s' := (batch_op op (mt, w)).2 in
  m s'.1 = m mt
  ∧ registry s'.2 = registry w
  ∧ counters s'.2 = counters w
  ∧ ticks s'.2 = ticks w
  ∧ (∀ h, h ≠ namedHistogram_Histogram (putSize (m mt)) →
          histograms s'.2 h = histograms w h)
  ∧ Samples s'.2 (putSize (m mt)) = Samples w (putSize (m mt)) ++ op_sizes op.
Proof.
  destruct op as [key val|key]; cbn [batch_op op_sizes].
  - unfold measuredBatch_Put, this, store_puts, in_world, size_sample.
    destruct (asBytes val) as [b|]; run;
      destruct (Batch_Put (putts mt) key val (store w)) as [r b'];
      cbn; rewrite ?app_nil_r; split_and!; try done; intros; by heap.
  - unfold measuredBatch_Delete, this, store_deletes, in_world. run.
    destruct (Batch_Delete (delts mt) key (store w)) as [r b'].
    cbn. by rewrite app_nil_r.
Qed.

End Batching.

(** ** Sequences of puts *)

Section Puts.
Context {B : Type}.
Implicit Types (ms : measure B) (w : World B).

Lemma measure_Put_clock ms key value w :
  clock (measure_Put ms key value w).2 = clock w
  ∧ ticks (measure_Put ms key value w).2 = S (S (ticks w)).
Proof.
  unfold measure_Put.
  destruct (asBytes value) as [b|]; run;
    by destruct (ds_Put (backend ms) key value (store w)) as [[[e|]|msg] b'].
Qed.

(** X3: every [Put] is counted and timed, whatever the backend did with
    it.  After [N] calls the put count has grown by [N], and the latency
    histogram has received [N] samples, the [i]-th of them the
    microseconds between the readings [2i] and [2i+1] of the clock taken
    since the start. *)
Theorem puts_counted ms kvs w :
  distinct_handles ms →
  inInt64 (Count w (putCount ms)) →
  let w' := put_each ms kvs w in
  Count w' (putCount ms) = wrap64 (Count w (putCount ms) + Z.of_nat (length kvs))
  ∧ Samples w' (putLatency ms)
    = Samples w (putLatency ms)
      ++ ((λ i, elapsed w (ticks w + 2 * i)) <$> seq 0 (length kvs))
  ∧ ticks w' = (ticks w + 2 * length kvs)%nat.
Proof.
  intros Hd. revert w. induction kvs as [|[key value] kvs IH]; intros w Hcount.
  - cbn. rewrite Z.add_0_r, wrap64_inInt64, app_nil_r by done.
    split_and!; done || lia.
  - cbv zeta. rewrite put_each_cons. cbn [fst snd].
    destruct (measure_Put_effect ms key value w Hd)
      as (_ & _ & Hc & _ & Hlat & _).
    destruct (measure_Put_clock ms key value w) as (Hclock & Hticks).
    destruct (IH (measure_Put ms key value w).2) as (-> & -> & ->).
    { rewrite Hc. apply wrap64_range. }
    rewrite Hc, Hlat, Hticks. split_and!.
    + rewrite wrap64_add_l. f_equal. cbn [length]. lia.
    + rewrite <- app_assoc. f_equal. cbn [length seq fmap list_fmap app].
      rewrite Nat.mul_0_r, Nat.add_0_r. f_equal.
      rewrite <- fmap_S_seq, <- list_fmap_compose. apply list_fmap_ext.
      intros _ i _. cbn [compose]. unfold elapsed. rewrite Hclock.
      by replace (S (S (ticks w)) + 2 * i)%nat with (ticks w + 2 * S i)%nat by lia.
    + cbn [length]. lia.
Qed.

(** X13: the latency sample of one call.  [recordLatency] reads the clock
    once and adds one sample, the time since [start] in whole
    microseconds, truncated: a call that took less than a microsecond is
    recorded as 0.  The subtraction saturates, so that the sample is
    within 9223372036854775 microseconds either way, whatever the two
    readings are. *)
Theorem recordLatency_sample h start w :
  let now := clock w (ticks w) in
  let out := recordLatency h start w in
  ∃ sample,
    out = (Returned (),
           set_histograms
             (<[namedHistogram_Histogram h := Samples w h ++ [sample]]> (histograms w))
             (nextHistogram w) (set_ticks (S (ticks w)) w))
    ∧ -9223372036854775 ≤ sample ≤ 9223372036854775
    ∧ (inInt64 (now - start) → sample = Z.quot (now - start) 1000)
    ∧ (start ≤ now < start + 1000 → sample = 0)
    ∧ (start ≤ now → 0 ≤ sample).
Proof.
  cbv zeta. exists (Z.quot (Time_Sub (clock w (ticks w)) start) Microsecond).
  split; [reflexivity|].
  set (d := clock w (ticks w) - start).
  assert (inInt64 (Time_Sub (clock w (ticks w)) start)) as Hsat.
  { unfold Time_Sub, inInt64, minInt64, maxInt64. repeat case_match; lia. }
  assert (inInt64 d → Time_Sub (clock w (ticks w)) start = d) as Hexact.
  { unfold Time_Sub, inInt64, minInt64, maxInt64. intros ?. subst d.
    repeat case_match; lia. }
  pose proof (Z.quot_rem' (Time_Sub (clock w (ticks w)) start) 1000) as Hquot.
  pose proof (Z.rem_bound_abs (Time_Sub (clock w (ticks w)) start) 1000) as Hrem.
  pose proof (Z.rem_nonneg (Time_Sub (clock w (ticks w)) start) 1000) as Hpos.
  pose proof (Z.rem_nonpos (Time_Sub (clock w (ticks w)) start) 1000) as Hneg.
  unfold inInt64, minInt64, maxInt64, Microsecond in *. split_and!.
  - lia.
  - lia.
  - intros Hd. by rewrite Hexact.
  - intros Hfast. rewrite Hexact by (subst d; lia).
    apply Z.quot_small. subst d. lia.
  - intros Hle. apply Z.quot_pos; [|lia]. apply Time_Sub_nonneg. lia.
Qed.
End Puts.

Lemma Batch_opens_two_sessions_witness :
  (measure_Batch example_m example_w).1
  = Returned (Some (mkMeasuredBatch 0 0 (recorderBatch example_script 0)
                      (recorderBatch example_script 1) example_m), None)
  ∧ store (measure_Batch example_m example_w).2 = [CallBatch; CallBatch].
Proof.
  destruct (Batch_opens_two_sessions example_m example_w
              (λ log, answer_with example_script CallBatch
                        (recorderBatch example_script (length log)) log))
    as (_ & Hopen); [reflexivity|].
  destruct Hopen as (Hstore & Hout). split; [exact Hout | exact Hstore].
Defined.

Lemma puts_counted_witness :
  let kvs := [("a", VBytes hello); ("b", VNil); ("c", VOther 7)] in
  Count (put_each example_m kvs example_w) (putCount example_m) = 3
  ∧ Samples (put_each example_m kvs example_w) (putLatency example_m) = [10; 10; 10].
Proof.
  destruct (puts_counted example_m
              [("a", VBytes hello); ("b", VNil); ("c", VOther 7)] example_w
              example_distinct) as (Hcount & Hlat & _).
  - vm_compute. split; discriminate.
  - cbv zeta. split.
    + etransitivity; [apply Hcount|]; vm_compute; reflexivity.
    + etransitivity; [apply Hlat|]; vm_compute; reflexivity.
Defined.

(** ** Batches, further *)

Section Commit2.
Context {B : Type}.
Implicit Types (mt : measuredBatch B) (w : World B) (b : Batch B).

Abbreviation delete_step mt :=
  (logBatchCommit (delts mt) (deletes mt)
     (namedCounter_Counter (deleteCount (m mt)))
     (namedCounter_Counter (deleteErr (m mt))) (deleteLatency (m mt))).
Abbreviation put_step mt :=
  (logBatchCommit (putts mt) (puts mt)
     (namedCounter_Counter (putCount (m mt)))
     (namedCounter_Counter (putErr (m mt))) (putLatency (m mt))).

(** X9: a panic of the backend in a direct [Put] is counted and timed, for
    the latency is recorded by a deferred call; a panic in the commit of a
    sub-batch is not: [Commit] passes the panic on with the count, the
    error counter and the latency histogram of that sub-batch as they
    were, the clock read once.  The delete sub-batch comes first, so a
    panic there leaves the put sub-batch uncommitted and unmeasured. *)
Theorem panic_in_commit_is_not_measured mt w key value msg :
  distinct_handles (m mt) →
  let out := measuredBatch_Commit mt w in
  let ms := m mt in
  ((ds_Put (backend ms) key value (store w)).1 = Panicked msg →
     (measure_Put ms key value w).1 = Panicked msg
     ∧ Count (measure_Put ms key value w).2 (putCount ms)
       = wrap64 (Count w (putCount ms) + 1)
     ∧ Samples (measure_Put ms key value w).2 (putLatency ms)
       = Samples w (putLatency ms) ++ [elapsed w (ticks w)])
  ∧ (0 < deletes mt →
     (Batch_Commit (delts mt) (store w)).1 = Panicked msg →
     out.1 = Panicked msg
     ∧ store out.2 = (Batch_Commit (delts mt) (store w)).2
     ∧ ticks out.2 = S (ticks w)
     ∧ Count out.2 (deleteCount ms) = Count w (deleteCount ms)
     ∧ Count out.2 (deleteErr ms) = Count w (deleteErr ms)
     ∧ Samples out.2 (deleteLatency ms) = Samples w (deleteLatency ms)
     ∧ Count out.2 (putCount ms) = Count w (putCount ms)
     ∧ Count out.2 (putErr ms) = Count w (putErr ms)
     ∧ Samples out.2 (putLatency ms) = Samples w (putLatency ms))
  ∧ (deletes mt ≤ 0 → 0 < puts mt →
     (Batch_Commit (putts mt) (store w)).1 = Panicked msg →
     out.1 = Panicked msg
     ∧ store out.2 = (Batch_Commit (putts mt) (store w)).2
     ∧ ticks out.2 = S (ticks w)
     ∧ Count out.2 (putCount ms) = Count w (putCount ms)
     ∧ Count out.2 (putErr ms) = Count w (putErr ms)
     ∧ Samples out.2 (putLatency ms) = Samples w (putLatency ms)).
Proof.
  intros Hd out ms. subst out ms. split_and!.
  - intros Hpanic.
    destruct (measure_Put_effect (m mt) key value w Hd)
      as (Hr & _ & Hcount & _ & Hlat & _).
    by rewrite Hr, Hpanic.
  - intros HD Hpanic. rewrite measuredBatch_Commit_steps.
    destruct (commit_deletes_effect mt w Hd HD)
      as (Hr & Hs & _ & Hpc & Hpe & Hpl & Hdel).
    rewrite Hpanic in Hr, Hdel. rewrite Hr.
    destruct Hdel as (? & ? & ? & ?). done.
  - intros HD HP Hpanic. rewrite measuredBatch_Commit_steps.
    rewrite logBatchCommit_skip by done. cbn [fst snd].
    destruct (commit_puts_effect mt w Hd HP)
      as (Hr & Hs & _ & _ & _ & _ & Hput).
    rewrite Hpanic in Hr, Hput.
    destruct Hput as (? & ? & ? & ?). done.
Qed.

(** What a [Commit] that returns no error has added. *)
Lemma Commit_ok_counts mt w :
  distinct_handles (m mt) →
  let out := measuredBatch_Commit mt w in
  out.1 = Returned None →
  Count out.2 (putCount (m mt))
  = (if 0 <? puts mt then wrap64 (Count w (putCount (m mt)) + puts mt)
     else Count w (putCount (m mt)))
  ∧ Count out.2 (deleteCount (m mt))
    = (if 0 <? deletes mt then wrap64 (Count w (deleteCount (m mt)) + deletes mt)
       else Count w (deleteCount (m mt)))
  ∧ length (Samples out.2 (putLatency (m mt)))
    = (length (Samples w (putLatency (m mt))) + Z.to_nat (puts mt))%nat
  ∧ length (Samples out.2 (deleteLatency (m mt)))
    = (length (Samples w (deleteLatency (m mt))) + Z.to_nat (deletes mt))%nat
  ∧ Count out.2 (putErr (m mt)) = Count w (putErr (m mt))
  ∧ Count out.2 (deleteErr (m mt)) = Count w (deleteErr (m mt)).
Proof.
  intros Hd out. subst out. rewrite measuredBatch_Commit_steps.
  destruct (Z.ltb_spec 0 (deletes mt)) as [HD|HD];
    destruct (Z.ltb_spec 0 (puts mt)) as [HP|HP].
  - destruct (commit_deletes_effect mt w Hd HD)
      as (Hr1 & _ & _ & Hpc & Hpe & Hpl & Hdel).
    destruct (commit_puts_effect mt (delete_step mt w).2 Hd HP)
      as (Hr2 & _ & _ & Hdc & Hde & Hdl & Hput).
    destruct (Batch_Commit (delts mt) (store w)).1 as [[e|]|msg];
      rewrite Hr1; [by rewrite Hr1| |by rewrite Hr1].
    intros Hok. rewrite Hr2 in Hok. rewrite Hok in Hput.
    destruct Hdel as (_ & Hdc' & Hde' & Hdl'), Hput as (_ & Hpc' & Hpe' & Hpl').
    rewrite Hpc', Hpl', Hpe', Hpc, Hpl, Hpe, Hdc, Hdl, Hde, Hdc', Hdl', Hde'.
    unfold amortized. by rewrite !length_app, !length_replicate.
  - destruct (commit_deletes_effect mt w Hd HD)
      as (Hr1 & _ & _ & Hpc & Hpe & Hpl & Hdel).
    assert ((match (delete_step mt w).1 with
             | Returned None => put_step mt (delete_step mt w).2
             | _ => delete_step mt w
             end) = delete_step mt w) as ->.
    { destruct (delete_step mt w) as [[[e|]|msg] w1]; cbn [fst snd]; [done| |done].
      by apply logBatchCommit_skip. }
    rewrite Hr1. intros Hok. rewrite Hok in Hdel.
    destruct Hdel as (_ & Hdc & Hde & Hdl).
    rewrite Hpc, Hpl, Hpe, Hdc, Hdl, Hde.
    unfold amortized. rewrite !length_app, !length_replicate.
    split_and!; try done. lia.
  - rewrite logBatchCommit_skip by done. cbn [fst snd].
    destruct (commit_puts_effect mt w Hd HP)
      as (Hr2 & _ & _ & Hdc & Hde & Hdl & Hput).
    rewrite Hr2. intros Hok. rewrite Hok in Hput.
    destruct Hput as (_ & Hpc & Hpe & Hpl).
    rewrite Hpc, Hpl, Hpe, Hdc, Hdl, Hde.
    unfold amortized. rewrite !length_app, !length_replicate.
    split_and!; try done. lia.
  - rewrite logBatchCommit_skip by done. cbn [fst snd].
    rewrite logBatchCommit_skip by done. cbn [fst snd].
    intros _. split_and!; try done; lia.
Qed.

(** X10: [Commit] does not reset the batch.  A second [Commit] of the same
    batch counts its operations again: after two commits without error
    the counts have grown by twice the buffered numbers, and the latency
    histograms have received twice as many samples. *)
Theorem Commit_twice_counts_twice mt w :
  distinct_handles (m mt) →
  let once := measuredBatch_Commit mt w in
  let twice := measuredBatch_Commit mt once.2 in
  once.1 = Returned None → twice.1 = Returned None →
  (0 < puts mt →
   Count twice.2 (putCount (m mt))
   = wrap64 (Count w (putCount (m mt)) + 2 * puts mt))
  ∧ (0 < deletes mt →
     Count twice.2 (deleteCount (m mt))
     = wrap64 (Count w (deleteCount (m mt)) + 2 * deletes mt))
  ∧ length (Samples twice.2 (putLatency (m mt)))
    = (length (Samples w (putLatency (m mt))) + 2 * Z.to_nat (puts mt))%nat
  ∧ length (Samples twice.2 (deleteLatency (m mt)))
    = (length (Samples w (deleteLatency (m mt))) + 2 * Z.to_nat (deletes mt))%nat.
Proof.
  intros Hd once twice Honce Htwice. subst once twice.
  destruct (Commit_ok_counts mt w Hd Honce) as (Hpc1 & Hdc1 & Hpl1 & Hdl1 & _).
  destruct (Commit_ok_counts mt _ Hd Htwice) as (Hpc2 & Hdc2 & Hpl2 & Hdl2 & _).
  rewrite Hpc2, Hdc2, Hpl2, Hdl2, Hpc1, Hdc1, Hpl1, Hdl1.
  split_and!; [| |lia|lia].
  - intros HP. destruct (Z.ltb_spec 0 (puts mt)); [|lia].
    rewrite wrap64_add_l. f_equal. lia.
  - intros HD. destruct (Z.ltb_spec 0 (deletes mt)); [|lia].
    rewrite wrap64_add_l. f_equal. lia.
Qed.

Lemma total_replicate n v : total (replicate n v) = Z.of_nat n * v.
Proof.
  induction n as [|n IH]; [done|].
  cbn [replicate]. unfold total in *. cbn [foldr]. rewrite IH. lia.
Qed.

(** X11: what the amortisation loses.  When the clock does not run
    backwards, the samples a commit of [n] operations adds to the latency
    histogram are not negative and add up to the microseconds the commit
    took, less a rounding loss of fewer than [n] microseconds; so a
    commit that took fewer microseconds than it has operations records
    [n] times 0. *)
Theorem amortized_total b n num errs lat w :
  0 < n → num ≠ errs → monotone_clock w →
  returned (Batch_Commit b (store w)).1 →
  let out := logBatchCommit b n num errs lat w in
  let took := elapsed w (ticks w) in
  let samples := amortized w (ticks w) n in
  Samples out.2 lat = Samples w lat ++ samples
  ∧ length samples = Z.to_nat n
  ∧ Forall (λ t, 0 ≤ t) samples
  ∧ total samples ≤ took < total samples + n
  ∧ (took < n → samples = replicate (Z.to_nat n) 0).
Proof.
  intros Hn Hne Hclock Hreturned out took samples. subst out took samples.
  destruct (logBatchCommit_effect b n num errs lat w Hn Hne)
    as (_ & _ & _ & _ & _ & Hr).
  destruct (Batch_Commit b (store w)).1 as [err|msg]; [|done].
  destruct Hr as (_ & _ & _ & Hlat).
  pose proof (elapsed_nonneg w (ticks w) Hclock) as Htook.
  assert (0 ≤ Z.quot (elapsed w (ticks w)) n) as Hsample
    by (apply Z.quot_pos; lia).
  split_and!.
  - done.
  - apply length_replicate.
  - unfold amortized. by apply Forall_replicate.
  - unfold amortized. rewrite total_replicate, Z2Nat.id by lia.
    rewrite Z.quot_div_nonneg by lia.
    pose proof (Z.mul_div_le (elapsed w (ticks w)) n Hn). lia.
  - unfold amortized. rewrite total_replicate, Z2Nat.id by lia.
    rewrite Z.quot_div_nonneg by lia.
    pose proof (Z.mul_succ_div_gt (elapsed w (ticks w)) n Hn). lia.
  - intros Hfast. unfold amortized. by rewrite Z.quot_small by lia.
Qed.

(** X14: a batch as [Batch] returns it has nothing buffered, and its
    [Commit] is skipped altogether: it returns no error and changes
    nothing, the backend sessions are not committed and no clock is
    read. *)
Theorem fresh_batch_Commit_is_skipped ms mt w w' :
  (measure_Batch ms w).1 = Returned (Some mt, None) →
  puts mt = 0 ∧ deletes mt = 0 ∧ m mt = ms
  ∧ measuredBatch_Commit mt w' = (Returned None, w').
Proof.
  unfold measure_Batch. destruct (ds_Batching (backend ms)) as [bds_Batch|]; [|done].
  run. destruct (bds_Batch (store w)) as [[[pb [e|]]|msg] b1]; cbn; [done| |done].
  destruct (bds_Batch b1) as [[[db [e|]]|msg] b2]; cbn; [done| |done].
  intros [= <-]. split_and!; [done..|].
  rewrite measuredBatch_Commit_steps. cbn [puts deletes putts delts m].
  rewrite logBatchCommit_skip by done. cbn [fst snd].
  by rewrite logBatchCommit_skip.
Qed.
End Commit2.

Lemma panic_in_commit_is_not_measured_witness :
  let out := measuredBatch_Commit (example_batch crashing 3 2) example_w in
  let ms := m (example_batch crashing 3 2) in
  out.1 = Panicked "commit: disk is gone"
  ∧ store out.2 = [CallCommit 1]
  ∧ Count out.2 (deleteCount ms) = 0
  ∧ Samples out.2 (deleteLatency ms) = []
  ∧ Count (measure_Put ms "a" VNil example_w).2 (putCount ms) = 1
  ∧ Samples (measure_Put ms "a" VNil example_w).2 (putLatency ms) = [10].
Proof.
  destruct (panic_in_commit_is_not_measured (example_batch crashing 3 2) example_w
              "a" VNil "commit: disk is gone"
              (example_batch_distinct crashing 3 2)) as (_ & Hcommit & _).
  destruct Hcommit as (Hr & Hstore & _ & Hcount & _ & Hlat & _);
    [vm_compute; reflexivity.. |].
  destruct (panic_in_commit_is_not_measured (example_batch crashing 3 2) example_w
              "a" VNil "put: disk is gone"
              (example_batch_distinct crashing 3 2)) as (Hput & _).
  destruct Hput as (_ & Hputs & Hputlat); [vm_compute; reflexivity|].
  cbv zeta. split_and!.
  - exact Hr.
  - etransitivity; [apply Hstore|]; vm_compute; reflexivity.
  - etransitivity; [apply Hcount|]; vm_compute; reflexivity.
  - etransitivity; [apply Hlat|]; vm_compute; reflexivity.
  - etransitivity; [apply Hputs|]; vm_compute; reflexivity.
  - etransitivity; [apply Hputlat|]; vm_compute; reflexivity.
Defined.

Lemma Commit_twice_counts_twice_witness :
  let once := measuredBatch_Commit (example_batch always_ok 3 2) example_w in
  let twice := measuredBatch_Commit (example_batch always_ok 3 2) once.2 in
  Count twice.2 (putCount example_m) = 6
  ∧ Count twice.2 (deleteCount example_m) = 4
  ∧ length (Samples twice.2 (putLatency example_m)) = 6%nat
  ∧ store twice.2 = [CallCommit 1; CallCommit 0; CallCommit 1; CallCommit 0].
Proof.
  destruct (Commit_twice_counts_twice (example_batch always_ok 3 2) example_w
              (example_batch_distinct always_ok 3 2))
    as (Hputs & Hdeletes & Hlat & _); [vm_compute; reflexivity.. |].
  cbv zeta. split_and!.
  - etransitivity; [apply Hputs|]; vm_compute; reflexivity.
  - etransitivity; [apply Hdeletes|]; vm_compute; reflexivity.
  - etransitivity; [apply Hlat|]; vm_compute; reflexivity.
  - vm_compute; reflexivity.
Defined.

Lemma amortized_total_witness :
  let b := recorderBatch always_ok 0 in
  let out := logBatchCommit b 4 0%nat 1%nat (putLatency example_m) example_w in
  Samples out.2 (putLatency example_m) = [2; 2; 2; 2]
  ∧ total [2; 2; 2; 2] ≤ 10 < total [2; 2; 2; 2] + 4.
Proof.
  destruct (amortized_total (recorderBatch always_ok 0) 4 0%nat 1%nat
              (putLatency example_m) example_w)
    as (Hsamples & _ & _ & Htotal & _).
  - lia.
  - lia.
  - exact example_monotone.
  - exact I.
  - cbv zeta. split.
    + etransitivity; [apply Hsamples|]; vm_compute; reflexivity.
    + exact Htotal.
Defined.

Lemma fresh_batch_Commit_is_skipped_witness :
  let mt := mkMeasuredBatch 0 0 (recorderBatch example_script 0)
              (recorderBatch example_script 1) example_m in
  measuredBatch_Commit mt (measure_Batch example_m example_w).2
  = (Returned None, (measure_Batch example_m example_w).2).
Proof.
  apply (fresh_batch_Commit_is_skipped example_m _ example_w). reflexivity.
Defined.

(** ** Construction, further *)

Section Construction2.
Context {B : Type}.
Implicit Types (ds : Datastore B) (w : World B).

(** One registration of [New]: either the name is taken, and [New] stops
    there, or it is free, and [New] goes on. *)
Ltac New_stops :=
  split_and!; try reflexivity;
  try (intros ? ?; repeat rewrite fn_lookup_insert_ne by lia; reflexivity);
  try (intros ?; discriminate).
Ltac New_step r name :=
  destruct (r !! name); [New_stops|];
  run_fields; rewrite ?lookup_insert_ne by (apply metric_names_ne; discriminate).

(** The world [New] leaves, whether it returns or panics: the
    registrations it got through, the cells it allocated. *)
Lemma New_world prefix ds w :
  let out := New prefix ds w in
  let ms := New_result prefix ds (nextCounter w) (nextHistogram w) in
  registry out.2
  = foldl (λ r h, <[h.1 := h.2]> r) (registry w)
      (take (free_prefix (metric_names prefix) (registry w)) (handles ms))
  ∧ clock out.2 = clock w ∧ ticks out.2 = ticks w ∧ store out.2 = store w
  ∧ (∀ c, (c < nextCounter w)%nat → counters out.2 c = counters w c)
  ∧ (∀ h, (h < nextHistogram w)%nat → histograms out.2 h = histograms w h)
  ∧ (first_taken (metric_names prefix) (registry w) = None →
     nextCounter out.2 = (10 + nextCounter w)%nat
     ∧ nextHistogram out.2 = (7 + nextHistogram w)%nat
     ∧ (∀ c, c ∈ counterHandles ms → counters out.2 c = 0)
     ∧ (∀ h, h ∈ histogramHandles ms → histograms out.2 h = [])).
Proof.
  destruct w as [r cs nc hs nh cl t b].
  unfold New, registerCounter, registerHistogram. run_fields.
  cbn [first_taken free_prefix metric_names metric_suffixes fmap list_fmap].
  New_step r (prefix +:+ ".put.count").
  New_step r (prefix +:+ ".put.err").
  New_step r (prefix +:+ ".put.latency").
  New_step r (prefix +:+ ".put.size").
  New_step r (prefix +:+ ".get.count").
  New_step r (prefix +:+ ".get.err").
  New_step r (prefix +:+ ".get.latency").
  New_step r (prefix +:+ ".get.size").
  New_step r (prefix +:+ ".has.count").
  New_step r (prefix +:+ ".has.err").
  New_step r (prefix +:+ ".has.latency").
  New_step r (prefix +:+ ".delete.count").
  New_step r (prefix +:+ ".delete.err").
  New_step r (prefix +:+ ".delete.latency").
  New_step r (prefix +:+ ".query.count").
  New_step r (prefix +:+ ".query.err").
  New_step r (prefix +:+ ".query.latency").
  split_and!; try reflexivity.
  - intros c Hc; repeat rewrite fn_lookup_insert_ne by lia; reflexivity.
  - intros h Hh; repeat rewrite fn_lookup_insert_ne by lia; reflexivity.
  - intros _. split_and!; try reflexivity.
    + intros c Hc. unfold counterHandles in Hc. cbn [fmap list_fmap] in Hc.
      repeat (apply elem_of_cons in Hc as [->|Hc];
              [repeat first [ rewrite fn_lookup_insert
                            | rewrite fn_lookup_insert_ne by (cbn; lia) ];
               reflexivity|]).
      by apply elem_of_nil in Hc.
    + intros h Hh. unfold histogramHandles in Hh. cbn [fmap list_fmap] in Hh.
      repeat (apply elem_of_cons in Hh as [->|Hh];
              [repeat first [ rewrite fn_lookup_insert
                            | rewrite fn_lookup_insert_ne by (cbn; lia) ];
               reflexivity|]).
      by apply elem_of_nil in Hh.
Qed.

Lemma free_prefix_None names (r : gmap string Metric) :
  first_taken names r = None → free_prefix names r = length names.
Proof.
  induction names as [|n names IH]; cbn; [done|].
  destruct (r !! n); [done|]. intros Hnone. by rewrite IH.
Qed.

Lemma free_prefix_Some pre name post (r : gmap string Metric) :
  (∀ n, n ∈ pre → r !! n = None) → is_Some (r !! name) →
  free_prefix (pre ++ name :: post) r = length pre.
Proof.
  intros Hfree [x Hx]. induction pre as [|n pre IH]; cbn.
  - by rewrite Hx.
  - rewrite Hfree by left. f_equal. apply IH. intros n' Hn'. apply Hfree. by right.
Qed.

Lemma lookup_registered_other (l : list (string * Metric)) (r : gmap string Metric) name :
  name ∉ l.*1 → foldl (λ r h, <[h.1 := h.2]> r) r l !! name = r !! name.
Proof.
  revert r. induction l as [|h l IH]; intros r Hname; cbn [foldl]; [done|].
  cbn [fmap list_fmap] in Hname. apply not_elem_of_cons in Hname as [Hne Hname].
  by rewrite IH, lookup_insert_ne.
Qed.

Lemma handles_names prefix ds c h :
  (handles (New_result prefix ds c h)).*1 = metric_names prefix.
Proof. reflexivity. Qed.

(** The registry after a [New] that found all its names free. *)
Lemma New_registry prefix ds w :
  (∀ name, name ∈ metric_names prefix → registry w !! name = None) →
  registry (New prefix ds w).2
  = foldl (λ r h, <[h.1 := h.2]> r) (registry w)
      (handles (New_result prefix ds (nextCounter w) (nextHistogram w))).
Proof.
  intros Hfree. destruct (New_world prefix ds w) as (-> & _).
  by rewrite free_prefix_None by by apply first_taken_None.
Qed.


(** X5: a [New] that panics does not undo the registrations it has made:
    the names before the taken one stay registered, and nothing else in
    the registry changes.  So when the taken name is not the first one,
    [New] with this prefix keeps panicking, now on the first name, also
    after the taken name has been released. *)
Theorem New_panic_keeps_registrations prefix ds ds' w w' pre name post :
  metric_names prefix = pre ++ name :: post →
  (∀ n, n ∈ pre → registry w !! n = None) →
  is_Some (registry w !! name) →
  let out := New prefix ds w in
  out.1 = Panicked (duplicate_metric name)
  ∧ dom (registry out.2) = dom (registry w) ∪ list_to_set pre
  ∧ (∀ x, x ∉ pre → registry out.2 !! x = registry w !! x)
  ∧ (pre ≠ [] → registry w' = delete name (registry out.2) →
     (New prefix ds' w').1 = Panicked (duplicate_metric (prefix +:+ ".put.count"))).
Proof.
  intros Hnames Hfree Htaken out. subst out.
  pose proof (New_run prefix ds w) as Hrun. cbv zeta in Hrun.
  rewrite Hnames, (first_taken_Some pre name post) in Hrun by done.
  destruct (New_world prefix ds w) as (Hr & _).
  rewrite Hnames, (free_prefix_Some pre name post) in Hr by done.
  set (ms := New_result prefix ds (nextCounter w) (nextHistogram w)) in *.
  assert ((take (length pre) (handles ms)).*1 = pre) as Hpre.
  { rewrite fmap_take. change ((handles ms).*1) with (metric_names prefix).
    by rewrite Hnames, take_app_length. }
  assert (dom (registry (New prefix ds w).2) = dom (registry w) ∪ list_to_set pre)
    as Hdom by (by rewrite Hr, dom_registered, Hpre).
  split_and!; [done|done| |].
  - intros x Hx. rewrite Hr. apply lookup_registered_other. by rewrite Hpre.
  - intros Hpre' Hw'.
    pose proof (New_run prefix ds' w') as Hagain. cbv zeta in Hagain.
    destruct pre as [|first pre]; [done|].
    assert (first = prefix +:+ ".put.count") as ->.
    { change (metric_names prefix)
        with ((prefix +:+ ".put.count")
                :: (String.app prefix <$> tail metric_suffixes)) in Hnames.
      cbn in Hnames. congruence. }
    assert (first_taken (metric_names prefix) (registry w')
            = Some (prefix +:+ ".put.count")) as Hfirst.
    { change (metric_names prefix)
        with ([] ++ (prefix +:+ ".put.count")
                 :: (String.app prefix <$> tail metric_suffixes)).
      apply first_taken_Some.
      - intros n Hn. by apply elem_of_nil in Hn.
      - rewrite Hw', lookup_delete_ne.
        + apply elem_of_dom. rewrite Hdom.
          apply elem_of_union_r, elem_of_list_to_set. by left.
        + intros ->. pose proof (metric_names_NoDup prefix) as Hnodup.
          rewrite Hnames in Hnodup. cbn in Hnodup.
          apply NoDup_cons in Hnodup as [Hnotin _].
          apply Hnotin, elem_of_app. right. by left. }
    by rewrite Hfirst in Hagain.
Qed.


Lemma handles_allocated prefix ds c h :
  let ms := New_result prefix ds c h in
  (∀ x, x ∈ counterHandles ms → (c ≤ x < 10 + c)%nat)
  ∧ (∀ x, x ∈ histogramHandles ms → (h ≤ x < 7 + h)%nat).
Proof.
  split; intros x Hx; cbn in Hx;
    repeat (apply elem_of_cons in Hx as [->|Hx]; [lia|]);
    by apply elem_of_nil in Hx.
Qed.

(** X6: the wrapper [New] returns starts from scratch and shares nothing:
    its counters read 0 and its histograms are empty, none of its
    handles is a counter or histogram that existed before, and those keep
    their contents.  [New] reads no clock and does not call the backend. *)
Theorem New_metrics_fresh prefix ds w :
  (∀ name, name ∈ metric_names prefix → registry w !! name = None) →
  let out := New prefix ds w in
  let ms := New_result prefix ds (nextCounter w) (nextHistogram w) in
  (∀ c, c ∈ counterHandles ms →
        counters out.2 c = 0 ∧ (nextCounter w ≤ c < nextCounter out.2)%nat)
  ∧ (∀ h, h ∈ histogramHandles ms →
          histograms out.2 h = [] ∧ (nextHistogram w ≤ h < nextHistogram out.2)%nat)
  ∧ (∀ c, (c < nextCounter w)%nat → counters out.2 c = counters w c)
  ∧ (∀ h, (h < nextHistogram w)%nat → histograms out.2 h = histograms w h)
  ∧ clock out.2 = clock w ∧ ticks out.2 = ticks w ∧ store out.2 = store w.
Proof.
  intros Hfree out ms. subst out ms.
  destruct (New_world prefix ds w)
    as (_ & Hclock & Hticks & Hstore & Hcs & Hhs & Hnew).
  destruct Hnew as (Hnc & Hnh & Hzero & Hempty); [by apply first_taken_None|].
  destruct (handles_allocated prefix ds (nextCounter w) (nextHistogram w))
    as (Hc & Hh).
  split_and!; try done.
  - intros c Hin. split; [by apply Hzero|]. rewrite Hnc. by apply Hc.
  - intros h Hin. split; [by apply Hempty|]. rewrite Hnh. by apply Hh.
Qed.

Lemma dots_app x s : dots (x +:+ s) = (dots x + dots s)%nat.
Proof.
  induction x as [|a x IH]; [done|].
  change (String a x +:+ s) with (String a (x +:+ s)).
  cbn [dots]. rewrite IH. lia.
Qed.

Lemma string_app_eq_app p1 s1 p2 s2 :
  p1 +:+ s1 = p2 +:+ s2 →
  ∃ x, (p2 = p1 +:+ x ∧ s1 = x +:+ s2) ∨ (p1 = p2 +:+ x ∧ s2 = x +:+ s1).
Proof.
  revert p2. induction p1 as [|a p1 IH]; intros p2 Heq.
  - exists p2. by left.
  - destruct p2 as [|b p2].
    + exists (String a p1). by right.
    + change (String a (p1 +:+ s1) = String b (p2 +:+ s2)) in Heq.
      injection Heq as -> Heq.
      destruct (IH _ Heq) as [x [[-> ->]|[-> ->]]]; exists x; auto.
Qed.

Lemma metric_suffixes_dots :
  Forall (λ s, dots s = 2%nat ∧ ∃ s', s = String "." s') metric_suffixes.
Proof. repeat constructor; by eexists. Qed.

(** A suffix of [New] is not the end of another one. *)
Lemma metric_suffix_whole x s1 s2 :
  s1 ∈ metric_suffixes → s2 ∈ metric_suffixes → s1 = x +:+ s2 → x = "".
Proof.
  intros Hs1 Hs2 Heq.
  pose proof metric_suffixes_dots as Hdots. rewrite Forall_forall in Hdots.
  destruct (Hdots _ Hs1) as (Hd1 & s1' & Hhead1).
  destruct (Hdots _ Hs2) as (Hd2 & _).
  destruct x as [|a x]; [done|]. exfalso.
  rewrite Heq, dots_app, Hd2 in Hd1. rewrite Heq in Hhead1.
  change (String a x +:+ s2) with (String a (x +:+ s2)) in Hhead1.
  injection Hhead1 as -> _. cbn in Hd1. lia.
Qed.

Lemma string_app_empty_r (p : string) : p +:+ "" = p.
Proof.
  induction p as [|a p IH]; [done|].
  change (String a p +:+ "") with (String a (p +:+ "")). by rewrite IH.
Qed.

(** The names of two prefixes are different names. *)
Lemma metric_names_disjoint p1 p2 name :
  p1 ≠ p2 → name ∈ metric_names p1 → name ∉ metric_names p2.
Proof.
  intros Hne (s1 & -> & Hs1)%list_elem_of_fmap (s2 & Heq & Hs2)%list_elem_of_fmap.
  destruct (string_app_eq_app _ _ _ _ Heq) as [x [[-> Hx]|[-> Hx]]];
    apply metric_suffix_whole in Hx; try done; subst x;
    apply Hne; by rewrite string_app_empty_r.
Qed.

(** X7: a prefix of its own is enough.  When the names of two different
    prefixes are free, [New] succeeds for the one and then for the other:
    no name of the one is a name of the other, the registry holds the 34
    names, and the two wrappers have no counter and no histogram in
    common. *)
Theorem distinct_prefixes_coexist p1 p2 (ds1 ds2 : Datastore B) w :
  p1 ≠ p2 →
  (∀ name, name ∈ metric_names p1 → registry w !! name = None) →
  (∀ name, name ∈ metric_names p2 → registry w !! name = None) →
  let out1 := New p1 ds1 w in
  let ms1 := New_result p1 ds1 (nextCounter w) (nextHistogram w) in
  let out2 := New p2 ds2 out1.2 in
  let ms2 := New_result p2 ds2 (nextCounter out1.2) (nextHistogram out1.2) in
  out1.1 = Returned ms1 ∧ out2.1 = Returned ms2
  ∧ (∀ name, name ∈ metric_names p1 → name ∉ metric_names p2)
  ∧ size (registry out2.2) = (size (registry w) + 34)%nat
  ∧ (∀ c, c ∈ counterHandles ms1 → c ∉ counterHandles ms2)
  ∧ (∀ h, h ∈ histogramHandles ms1 → h ∉ histogramHandles ms2).
Proof.
  intros Hne Hfree1 Hfree2 out1 ms1 out2 ms2. subst out1 ms1 out2 ms2.
  pose proof (New_run p1 ds1 w) as Hrun1. cbv zeta in Hrun1.
  rewrite first_taken_None in Hrun1 by done. destruct Hrun1 as (Hms1 & _).
  pose proof (New_registry p1 ds1 w Hfree1) as Hr1.
  assert (∀ name, name ∈ metric_names p2 →
                  registry (New p1 ds1 w).2 !! name = None) as Hfree2'.
  { intros name Hname. rewrite Hr1, lookup_registered_other by
      (intros Hin; by apply (metric_names_disjoint p1 p2 name)).
    by apply Hfree2. }
  pose proof (New_run p2 ds2 (New p1 ds1 w).2) as Hrun2. cbv zeta in Hrun2.
  rewrite first_taken_None in Hrun2 by done. destruct Hrun2 as (Hms2 & _).
  destruct (New_world p1 ds1 w) as (_ & _ & _ & _ & _ & _ & Hnew).
  destruct Hnew as (Hnc & Hnh & _); [by apply first_taken_None|].
  split_and!; [done|done| | | |].
  - intros name. by apply metric_names_disjoint.
  - rewrite (New_registry p2 ds2 _ Hfree2'), size_registered;
      [|apply metric_names_NoDup|done].
    rewrite Hr1, size_registered; [|apply metric_names_NoDup|done].
    cbn [length handles]. lia.
  - intros c Hc1 Hc2. rewrite Hnc in Hc2.
    apply handles_allocated in Hc1. apply handles_allocated in Hc2. lia.
  - intros h Hh1 Hh2. rewrite Hnh in Hh2.
    apply handles_allocated in Hh1. apply handles_allocated in Hh2. lia.
Qed.
End Construction2.


(** A world where the name [ds.put.latency] is taken. *)
Lemma New_panic_keeps_registrations_witness :
  let w := set_registry {["ds.put.latency" := MCounter 99%nat]} example_w in
  let out := New "ds" example_ds w in
  out.1 = Panicked (duplicate_metric "ds.put.latency")
  ∧ dom (registry out.2)
    = {["ds.put.latency"]} ∪ list_to_set ["ds.put.count"; "ds.put.err"]
  ∧ (New "ds" example_ds (set_registry (delete "ds.put.latency" (registry out.2)) out.2)).1
    = Panicked (duplicate_metric "ds.put.count").
Proof.
  set (w := set_registry {["ds.put.latency" := MCounter 99%nat]} example_w).
  destruct (New_panic_keeps_registrations "ds" example_ds example_ds w
              (set_registry (delete "ds.put.latency" (registry (New "ds" example_ds w).2))
                 (New "ds" example_ds w).2)
              ["ds.put.count"; "ds.put.err"] "ds.put.latency"
              (String.app "ds" <$> drop 3 metric_suffixes))
    as (Hpanic & Hdom & _ & Hagain).
  - reflexivity.
  - intros n Hn. apply (bool_decide_unpack _). 
    repeat (apply elem_of_cons in Hn as [->|Hn]; [by vm_compute|]).
    by apply elem_of_nil in Hn.
  - by eexists.
  - cbv zeta. split_and!.
    + exact Hpanic.
    + rewrite Hdom. f_equal.
    + apply Hagain; done.
Defined.

Lemma New_metrics_fresh_witness :
  Count (New "ds" example_ds example_w).2 (putCount example_m) = 0
  ∧ Samples (New "ds" example_ds example_w).2 (putSize example_m) = [].
Proof.
  destruct (New_metrics_fresh "ds" example_ds example_w)
    as (Hcs & Hhs & _).
  { intros name _. apply lookup_empty. }
  split.
  - apply Hcs. by left.
  - apply Hhs. right. by left.
Defined.

Lemma distinct_prefixes_coexist_witness :
  let out1 := New "ds" example_ds example_w in
  let out2 := New "cache" example_ds out1.2 in
  out2.1 = Returned (New_result "cache" example_ds (nextCounter out1.2) (nextHistogram out1.2))
  ∧ size (registry out2.2) = 34%nat.
Proof.
  destruct (distinct_prefixes_coexist "ds" "cache" example_ds example_ds example_w)
    as (_ & Hms2 & _ & Hsize & _).
  - discriminate.
  - intros name _. apply lookup_empty.
  - intros name _. apply lookup_empty.
  - cbv zeta. split; [exact Hms2 | exact Hsize].
Defined.

(** ** Teardown, again *)

Section Teardown2.
Context {B : Type}.
Implicit Types (ms : measure B) (w : World B).

(** X8: [Close] has no guard against a second call.  Closing twice leaves
    the registry as the first [Close] left it (unregistering a name that
    is not there is no error), but the backend, when it is an
    [io.Closer], is closed a second time, and the caller gets what that
    second call returned.  The counters and histograms keep their
    contents through both. *)
Theorem Close_twice ms w :
  let once := measure_Close ms w in
  let twice := measure_Close ms once.2 in
  registry twice.2 = registry once.2
  ∧ counters twice.2 = counters w ∧ histograms twice.2 = histograms w
  ∧ match ds_Closer (backend ms) with
    | Some c_Close =>
        store once.2 = (c_Close (store w)).2
        ∧ twice.1 = (c_Close (store once.2)).1
        ∧ store twice.2 = (c_Close (store once.2)).2
    | None => twice.1 = Returned None ∧ store twice.2 = store w
    end.
Proof.
  cbv zeta.
  destruct (measure_Close_effect ms w) as (Hr1 & Hcs1 & Hhs1 & Hclose1).
  destruct (measure_Close_effect ms (measure_Close ms w).2)
    as (Hr2 & Hcs2 & Hhs2 & Hclose2).
  split_and!.
  - apply map_eq. intros name.
    rewrite Hr2, lookup_unregistered, Hr1, lookup_unregistered.
    by destruct (decide (name ∈ handle_names ms)).
  - by rewrite Hcs2.
  - by rewrite Hhs2.
  - destruct (ds_Closer (backend ms)) as [c_Close|].
    + by destruct Hclose1, Hclose2.
    + destruct Hclose1 as (_ & <-). done.
Qed.
End Teardown2.
